(** * wire-nio: the asynchronous client's request pipeline

    A shallow embedding of [wire_nio/client/async_client.py]: the lazily
    created client session, [send], the header construction and the retry
    loop of [api_send], [receive_response] and [parse_wire_response].

    Coroutines are run to completion against a scripted network: every
    [await] of the source is a call in a state-and-exception monad whose
    state holds the client object, the answers the network still has to give
    and a log of the observable effects (requests, sleeps, responses handed
    to the base client). *)

From Stdlib Require Import ZArith QArith.
From stdpp Require Import base gmap strings list pretty.

Set Warnings "-register-all".

Local Open Scope string_scope.
Local Open Scope Z_scope.
Local Open Scope list_scope.

(** ** Python objects *)

(** The classes the client tests objects against, together with the two
    built-in classes every object model needs. *)
Inductive pyclass :=
| Object
| TypeCls
| BaseResponse
| ErrorResponse
| LoginResponse
| UsersResponse
| ConverstionsResponse
| ClientsResponse
| NotificationsResponse.

#[global] Instance pyclass_eq_dec : EqDecision pyclass.
Proof. solve_decision. Defined.

(** Modelled from the spec: the class hierarchy of the [response] module,
    which is not among the sources. Every response variant, the error
    variant included, is a recognised response, that is a subclass of
    [BaseResponse]; the classes use the default metaclass [type]. *)
Definition mro (c : pyclass) : list pyclass :=
  match c with
  | Object => [Object]
  | TypeCls => [TypeCls; Object]
  | BaseResponse => [BaseResponse; Object]
  | _ => [c; BaseResponse; Object]
  end.

(** Attribute values: what [retry_after_ms] may hold. *)
Inductive pyval :=
| VNone
| VInt (z : Z).

Record instance := Instance {
  inst_class : pyclass;
  inst_attrs : gmap string pyval
}.

(** A value handed around by the client is a class object or an instance. *)
Inductive pyobj :=
| PyClass (c : pyclass)
| PyInst (i : instance).

(** [type(o)]: a class object is an instance of its metaclass. *)
Definition type_of (o : pyobj) : pyclass :=
  match o with
  | PyClass _ => TypeCls
  | PyInst i => inst_class i
  end.

Definition issubclass (c d : pyclass) : bool := bool_decide (d ∈ mro c).

Definition isinstance (o : pyobj) (c : pyclass) : bool :=
  issubclass (type_of o) c.

(** Truth value of an attribute value and Python's [a or b]. *)
Definition truthy (v : pyval) : bool :=
  match v with
  | VNone => false
  | VInt z => negb (Z.eqb z 0)
  end.

Definition py_or (a b : pyval) : pyval := if truthy a then a else b.

Definition getattr (o : instance) (name : string) (default : pyval) : pyval :=
  match inst_attrs o !! name with
  | Some v => v
  | None => default
  end.

(** ** Exceptions *)

Inductive exn :=
| ClientError
| ClientConnectionError
| ServerDisconnectedError
| ClientPayloadError
| ClientResponseError
| ContentTypeError
| TimeoutError
| AsyncioTimeoutError
| ValueError
| JSONDecodeError
| TypeError
| AssertionError
| ArithmeticError
| OverflowError
| AttributeError.

#[global] Instance exn_eq_dec : EqDecision exn.
Proof. solve_decision. Defined.

(** The classes an exception is an instance of (aiohttp's and the standard
    library's hierarchy, up to [Exception]). *)
Definition exn_mro (e : exn) : list exn :=
  match e with
  | ClientConnectionError => [ClientConnectionError; ClientError]
  | ServerDisconnectedError =>
      [ServerDisconnectedError; ClientConnectionError; ClientError]
  | ClientPayloadError => [ClientPayloadError; ClientError]
  | ClientResponseError => [ClientResponseError; ClientError]
  | ContentTypeError => [ContentTypeError; ClientResponseError; ClientError]
  | JSONDecodeError => [JSONDecodeError; ValueError]
  | OverflowError => [OverflowError; ArithmeticError]
  | _ => [e]
  end.

(** [except (C1, ..., Cn)] catches an exception that is an instance of one
    of the listed classes. *)
Definition except_matches (classes : list exn) (e : exn) : bool :=
  existsb (fun c => bool_decide (c ∈ exn_mro e)) classes.

(** The body could not be read as structured data: what
    [ClientResponse.json] raises on a wrong content type or malformed
    text. *)
Definition decode_error (e : exn) : bool :=
  bool_decide (e = ContentTypeError ∨ e = JSONDecodeError).

(** ** Transport objects *)

Inductive json :=
| JNull
| JBool (b : bool)
| JInt (z : Z)
| JStr (s : string)
| JList (l : list json)
| JDict (d : list (string * json)).

Record ClientResponse := {
  status : Z;
  content_type : string;
  json_body : exn + json
}.

(** A connection's transport with its write-buffer water marks. *)
Record Connection := {
  write_buffer_high : Z;
  write_buffer_low : Z
}.

(** [transport.set_write_buffer_limits(high)]: the low mark defaults to a
    quarter of the high one. *)
Definition set_write_buffer_limits (high : Z) (c : Connection) : Connection :=
  {| write_buffer_high := high; write_buffer_low := high `div` 4 |}.

(** [connect_wrapper]: [connection] is what the connector class's own
    [connect] returned. *)
Definition connect_wrapper (connection : Connection) : Connection :=
  set_write_buffer_limits (16 * 1024) connection.

Record ClientSession := {
  timeout_total : Q;
  trace_configs : nat;
  connector_connect : Connection -> Connection
}.

Record ClientConfig := {
  request_timeout : Q;
  max_limit_exceeded : option Z;
  max_timeouts : option Z
}.

Record AsyncClient := {
  client_session : option ClientSession;
  server : string;
  ssl : bool;
  proxy : option string;
  config : ClientConfig;
  access_token : option string
}.

(** The arguments of one [ClientSession.request] call. *)
Record Request := {
  req_session : ClientSession;
  req_method : string;
  req_url : string;
  req_data : option string;
  req_ssl : bool;
  req_proxy : option string;
  req_headers : option (gmap string string);
  req_timeout : Q
}.

(** ** The world a coroutine runs in *)

Inductive event :=
| EvRequest (r : Request)
| EvSleep (seconds : Q)
| EvReceive (resp : pyobj).

Record world := {
  self : AsyncClient;
  network : list (exn + ClientResponse);
  log : list event;
  sessions_created : list ClientSession
}.

Definition set_client_session (s : ClientSession) (w : world) : world :=
  {| self := {| client_session := Some s;
                server := server (self w);
                ssl := ssl (self w);
                proxy := proxy (self w);
                config := config (self w);
                access_token := access_token (self w) |};
     network := network w;
     log := log w;
     sessions_created := sessions_created w ++ [s] |}.

Definition set_network (n : list (exn + ClientResponse)) (w : world) : world :=
  {| self := self w; network := n; log := log w;
     sessions_created := sessions_created w |}.

Definition set_self (c : AsyncClient) (w : world) : world :=
  {| self := c; network := network w; log := log w;
     sessions_created := sessions_created w |}.

Definition add_log (e : event) (w : world) : world :=
  {| self := self w; network := network w; log := log w ++ [e];
     sessions_created := sessions_created w |}.

(** How a coroutine ends: it returns, it raises, or it is still waiting for
    an answer the script does not contain. *)
Inductive outcome (A : Type) :=
| Ret (a : A)
| Raise (e : exn)
| Pending.
Arguments Ret {A} a.
Arguments Raise {A} e.
Arguments Pending {A}.

Definition M (A : Type) : Type := world -> outcome A * world.

Definition ret {A} (a : A) : M A := fun w => (Ret a, w).
Definition raise {A} (e : exn) : M A := fun w => (Raise e, w).
Definition pending {A} : M A := fun w => (Pending, w).

Definition bind {A B} (m : M A) (k : A -> M B) : M B := fun w =>
  match m w with
  | (Ret a, w') => k a w'
  | (Raise e, w') => (Raise e, w')
  | (Pending, w') => (Pending, w')
  end.

Notation "x <- m ;; k" := (bind m (fun x => k))
  (at level 100, m at next level, right associativity).
Notation "m ;;; k" := (bind m (fun _ => k))
  (at level 100, right associativity).

Definition get_self : M AsyncClient := fun w => (Ret (self w), w).

Definition lift {A} (r : exn + A) : M A :=
  match r with
  | inl e => raise e
  | inr a => ret a
  end.

(** [try: body except classes: handler], the handler seeing the exception it
    caught (a bare [raise] re-raises it). *)
Definition try_except {A} (body : M A) (classes : list exn)
    (handler : exn -> M A) : M A := fun w =>
  match body w with
  | (Raise e, w') =>
      if except_matches classes e then handler e w' else (Raise e, w')
  | r => r
  end.

(** [asyncio.sleep]. *)
Definition sleep (seconds : Q) : M unit := fun w =>
  (Ret tt, add_log (EvSleep seconds) w).

(** [ClientSession.request]: the network gives its next answer. *)
Definition request (r : Request) : M ClientResponse := fun w =>
  let w := add_log (EvRequest r) w in
  match network w with
  | [] => (Pending, w)
  | inl e :: rest => (Raise e, set_network rest w)
  | inr t :: rest => (Ret t, set_network rest w)
  end.

(** ** A sample deployment *)

Definition assoc (k : string) (d : list (string * json)) : option json :=
  snd <$> find (λ kv, String.eqb (fst kv) k) d.

(** Modelled from the spec: the variant constructors of the [response]
    module, which is not among the sources. A payload with an error shape (a
    dictionary with a [code]) becomes an error variant that exposes the
    payload's [retry_after_ms]; any other payload becomes the variant asked
    for. *)
Definition sample_parse_data (c : pyclass) (content : json) : instance :=
  match content with
  | JDict d =>
      match assoc "code" d with
      | Some _ =>
          Instance ErrorResponse
            match assoc "retry_after_ms" d with
            | Some (JInt ms) => {[ "retry_after_ms" := VInt ms ]}
            | Some JNull => {[ "retry_after_ms" := VNone ]}
            | _ => ∅
            end
      | None => Instance c ∅
      end
  | _ => Instance c ∅
  end.

(** A backoff that doubles with every timeout. *)
Definition sample_wait (got_timeouts : Z) : Q := inject_Z (2 ^ got_timeouts).

Definition sample_config : ClientConfig :=
  {| request_timeout := 60; max_limit_exceeded := Some 2;
     max_timeouts := Some 2 |}.

Definition unlimited_config : ClientConfig :=
  {| request_timeout := 60; max_limit_exceeded := None;
     max_timeouts := None |}.

(** A client as [__init__] leaves it, before any login. *)
Definition new_client (cfg : ClientConfig) : AsyncClient :=
  {| client_session := None;
     server := "https://prod-nginz-https.wire.com";
     ssl := true;
     proxy := None;
     config := cfg;
     access_token := None |}.

Definition new_world (cfg : ClientConfig)
    (answers : list (exn + ClientResponse)) : world :=
  {| self := new_client cfg; network := answers; log := [];
     sessions_created := [] |}.

Definition json_response (code : Z) (content : json) : ClientResponse :=
  {| status := code; content_type := "application/json";
     json_body := inr content |}.

(** The body of the specification's rate-limit example. *)
Definition rate_limited_body : json :=
  JDict [("code", JInt 429); ("message", JStr "rate limited");
         ("retry_after_ms", JInt 1500)].

Definition too_many_requests : ClientResponse :=
  json_response 429 rate_limited_body.

Definition ok_response : ClientResponse :=
  json_response 200 (JDict [("users", JList [])]).

(** A body that is no JSON at all. *)
Definition garbled_response : ClientResponse :=
  {| status := 200; content_type := "text/html";
     json_body := inl ContentTypeError |}.

Definition service_unavailable : ClientResponse :=
  json_response 503 (JDict [("users", JList [])]).

(** An answer whose body stops arriving: reading it times out. *)
Definition stalled_response : ClientResponse :=
  {| status := 200; content_type := "application/json";
     json_body := inl AsyncioTimeoutError |}.

(** A rate-limit answer whose body is an HTML page: reading it as JSON
    fails. *)
Definition html_429 : ClientResponse :=
  {| status := 429; content_type := "text/html";
     json_body := inl ContentTypeError |}.

(** A rate-limit answer that asks for a wait no float can hold. *)
Definition huge_429 : ClientResponse :=
  json_response 429
    (JDict [("code", JInt 429); ("retry_after_ms", JInt (10 ^ 400))]).

Definition no_retry_config : ClientConfig :=
  {| request_timeout := 60; max_limit_exceeded := Some 0;
     max_timeouts := Some 0 |}.

Definition sample_version : string := "0.0.1".

Definition sample_session : ClientSession :=
  {| timeout_total := 60; trace_configs := 1;
     connector_connect := connect_wrapper |}.

(** A client that has sent before and holds a token. *)
Definition running_world (cfg : ClientConfig)
    (answers : list (exn + ClientResponse)) : world :=
  {| self := {| client_session := Some sample_session;
                server := "https://prod-nginz-https.wire.com";
                ssl := true;
                proxy := None;
                config := cfg;
                access_token := Some "token" |};
     network := answers;
     log := [];
     sessions_created := [sample_session] |}.

(** A base client that notes the token once a login response arrives and
    leaves every other response alone. *)
Definition sample_receive_response (resp : pyobj) (c : AsyncClient)
    : AsyncClient :=
  if isinstance resp LoginResponse
  then {| client_session := client_session c; server := server c;
          ssl := ssl c; proxy := proxy c; config := config c;
          access_token := Some "token" |}
  else c.

(** ** The client *)

Section AsyncClient.

(** [__version__], from the package's version module. *)
Variable version : string.

(** [response_class().parse_data(content)]: the variant constructors of the
    [response] module. *)
Variable parse_data : pyclass -> json -> instance.

(** [Client.get_timeout_retry_wait_time], the base client's backoff policy. *)
Variable get_timeout_retry_wait_time : Z -> Q.

(** [Client.receive_response], the base client's state update ("change the
    client state accordingly"): it is taken to return, and what it makes of
    the client on a response is left open. *)
Variable Client_receive_response : pyobj -> AsyncClient -> AsyncClient.

Definition USER_AGENT : string := "wire-nio/" +:+ version.

(** [str] of an optional string and of an integer. *)
Definition str_opt (s : option string) : string :=
  match s with
  | Some s => s
  | None => "None"
  end.

Definition str_int (n : Z) : string := pretty n.

(** The [client_session] decorator: [not self.client_session] holds exactly
    when the attribute is [None], a session object being truthy. *)
Definition new_client_session (c : AsyncClient) : ClientSession :=
  {| timeout_total := request_timeout (config c);
     trace_configs := 1;
     connector_connect := connect_wrapper |}.

Definition client_session_wrapper {A} (func : M A) : M A := fun w =>
  match client_session (self w) with
  | None => func (set_client_session (new_client_session (self w)) w)
  | Some _ => func w
  end.

Definition send (method path : string) (data : option string)
    (headers : option (gmap string string)) (timeout : option Q)
    : M ClientResponse :=
  client_session_wrapper (
    c <- get_self ;;
    match client_session c with
    | None => raise AssertionError
    | Some session =>
        request {| req_session := session;
                   req_method := method;
                   req_url := server c +:+ path;
                   req_data := data;
                   req_ssl := ssl c;
                   req_proxy := proxy c;
                   req_headers := headers;
                   req_timeout := match timeout with
                                  | None => request_timeout (config c)
                                  | Some t => t
                                  end |}
    end).

(** [response_class().parse_data(content)] for a class: [object()] has no
    [parse_data], [type()] is refused for want of arguments, and the
    response classes have their constructors. *)
Definition call_parse_data (c : pyclass) (content : json) : exn + instance :=
  match c with
  | Object => inl AttributeError
  | TypeCls => inl TypeError
  | _ => inr (parse_data c content)
  end.

(** [parse_wire_response]: calling [response_class] needs a class. *)
Definition parse_wire_response (response_class : pyobj)
    (transport_response : ClientResponse) (data : option (list pyval))
    : M instance :=
  let data := match data with
              | Some (x :: l) => x :: l
              | _ => []
              end in
  let content_type := content_type transport_response in
  content <- lift (json_body transport_response) ;;
  let is_json := String.eqb content_type "application/json" in
  match response_class with
  | PyClass c => lift (call_parse_data c content)
  | PyInst _ => raise TypeError
  end.

(** The world once the base client has received [resp]: the call is logged
    and the client is what the base client makes of it. *)
Definition received (resp : pyobj) (w : world) : world :=
  set_self (Client_receive_response resp (self w)) (add_log (EvReceive resp) w).

(** [receive_response]: after the type check the response goes to the base
    client's [receive_response]. *)
Definition receive_response (resp : pyobj) : M unit :=
  if negb (isinstance resp BaseResponse) then raise ValueError
  else fun w => (Ret tt, received resp w).

(** The header dictionary [api_send] builds before its loop. *)
Definition api_send_headers (c : AsyncClient) (response_class : pyobj)
    (content_type : option string) (content_length : option Z)
    : gmap string string :=
  let headers : gmap string string :=
    <["Content-Type" := match content_type with
                        | Some (String a s) => String a s
                        | _ => "application/json"
                        end]>
    (<["Accept" := "*/*"]>
    (<["User-Agent" := USER_AGENT]> ∅)) in
  let headers :=
    if negb (isinstance response_class LoginResponse)
    then <["Authorization" := "Bearer " +:+ str_opt (access_token c)]> headers
    else headers in
  match content_length with
  | Some n => <["Content-Length" := str_int n]> headers
  | None => headers
  end.

(** [max is not None and got > max]. *)
Definition exceeds (max : option Z) (got : Z) : bool :=
  match max with
  | None => false
  | Some m => m <? got
  end.

(** [getattr(resp, "retry_after_ms", 0) or 5000]. *)
Definition retry_after_ms (resp : instance) : pyval :=
  py_or (getattr resp "retry_after_ms" (VInt 0)) (VInt 5000).

(** The integers whose quotient by 1000 is a float: the quotient rounds to
    a double below [2 ^ 1024], the half-way point to which is
    [2 ^ 1024 - 2 ^ 970]. *)
Definition float_limit : Z := 1000 * (2 ^ 1024 - 2 ^ 970).

Definition float_div_ok (z : Z) : bool := Z.abs z <? float_limit.

(** [retry_after_ms / 1000]: the exact quotient in lowest terms (Python
    rounds it to the nearest double) when that is a float, an overflow error
    otherwise; [None / 1000] is a type error. *)
Definition truediv_1000 (v : pyval) : exn + Q :=
  match v with
  | VInt z =>
      if float_div_ok z then inr (Qred (z # 1000)) else inl OverflowError
  | VNone => inl TypeError
  end.

Definition rate_limited (transport_resp : ClientResponse) (resp : instance)
    : bool :=
  (status transport_resp =? 429) || isinstance (PyInst resp) ErrorResponse.

(** What one turn of the [while True] loop decides. *)
Inductive loop_ctl :=
| Break (resp : instance)
| Continue (got_429 got_timeouts : Z).

Definition retry_errors : list exn :=
  [ClientConnectionError; TimeoutError; AsyncioTimeoutError].

Definition api_send_turn (response_class : pyobj) (method path : string)
    (data : option string) (response_data : option (list pyval))
    (headers : gmap string string) (timeout : option Q)
    (max_429 max_timeouts : option Z) (got_429 got_timeouts : Z)
    : M loop_ctl :=
  try_except
    (transport_resp <- send method path data (Some headers) timeout ;;
     resp <- parse_wire_response response_class transport_resp response_data ;;
     if rate_limited transport_resp resp then
       let got_429 := got_429 + 1 in
       if exceeds max_429 got_429 then ret (Break resp)
       else
         wait <- lift (truediv_1000 (retry_after_ms resp)) ;;
         sleep wait ;;;
         ret (Continue got_429 got_timeouts)
     else ret (Break resp))
    retry_errors
    (fun e =>
       let got_timeouts := got_timeouts + 1 in
       if exceeds max_timeouts got_timeouts then raise e
       else
         sleep (get_timeout_retry_wait_time got_timeouts) ;;;
         ret (Continue got_429 got_timeouts)).

(** The loop; [fuel] bounds the number of turns, and a turn that finds the
    script empty leaves the call pending. *)
Fixpoint api_send_loop (fuel : nat) (response_class : pyobj)
    (method path : string) (data : option string)
    (response_data : option (list pyval)) (headers : gmap string string)
    (timeout : option Q) (max_429 max_timeouts : option Z)
    (got_429 got_timeouts : Z) : M instance :=
  match fuel with
  | O => pending
  | S fuel =>
      ctl <- api_send_turn response_class method path data response_data
               headers timeout max_429 max_timeouts got_429 got_timeouts ;;
      match ctl with
      | Break resp => ret resp
      | Continue got_429 got_timeouts =>
          api_send_loop fuel response_class method path data response_data
            headers timeout max_429 max_timeouts got_429 got_timeouts
      end
  end.

(** Every turn takes one answer from the script, so one turn more than the
    script is long is fuel enough. *)
Definition api_send (response_class : pyobj) (method path : string)
    (data : option string) (response_data : option (list pyval))
    (content_type : option string) (timeout : option Q)
    (content_length : option Z) : M instance := fun w =>
  let headers :=
    api_send_headers (self w) response_class content_type content_length in
  let got_429 := 0 in
  let max_429 := max_limit_exceeded (config (self w)) in
  let got_timeouts := 0 in
  let max_timeouts := max_timeouts (config (self w)) in
  (resp <- api_send_loop (S (length (network w))) response_class method path
             data response_data headers timeout max_429 max_timeouts
             got_429 got_timeouts ;;
   receive_response (PyInst resp) ;;;
   ret resp) w.

(** ** Vocabulary of the statements *)

(** The session a call finds or, when there is none yet, gets. *)
Definition current_session (c : AsyncClient) : ClientSession :=
  match client_session c with
  | Some s => s
  | None => new_client_session c
  end.

Definition ensure_session (w : world) : world :=
  match client_session (self w) with
  | None => set_client_session (new_client_session (self w)) w
  | Some _ => w
  end.

(** The request [send] hands to the session. *)
Definition send_request (c : AsyncClient) (method path : string)
    (data : option string) (headers : option (gmap string string))
    (timeout : option Q) : Request :=
  {| req_session := current_session c;
     req_method := method;
     req_url := server c +:+ path;
     req_data := data;
     req_ssl := ssl c;
     req_proxy := proxy c;
     req_headers := headers;
     req_timeout := match timeout with
                    | None => request_timeout (config c)
                    | Some t => t
                    end |}.

(** The world once the session exists, the script has shrunk to [rest] and
    the events [tr] have been logged. *)
Definition after (w : world) (rest : list (exn + ClientResponse))
    (tr : list event) : world :=
  {| self := self (ensure_session w);
     network := rest;
     log := log w ++ tr;
     sessions_created := sessions_created (ensure_session w) |}.

(** The variant a transport response decodes to, if its body is readable. *)
Definition decoded (c : pyclass) (t : ClientResponse) : option instance :=
  match json_body t with
  | inr content =>
      match call_parse_data c content with
      | inr resp => Some resp
      | inl _ => None
      end
  | inl _ => None
  end.

(** The wait a variant asks for can be computed: its [retry_after_ms], or
    the default in its place, divides by 1000 into a float. *)
Definition wait_ok (resp : instance) : bool :=
  match retry_after_ms resp with
  | VInt z => float_div_ok z
  | VNone => true
  end.

(** A response the loop sleeps over and retries after: its body decodes, it
    is HTTP 429 or an error variant, and the wait it asks for can be
    computed. *)
Definition limited (c : pyclass) (t : ClientResponse) : bool :=
  match decoded c t with
  | Some resp => rate_limited t resp && wait_ok resp
  | None => false
  end.

(** A response that ends the call: decodable, not rate limited, and a
    response variant. *)
Definition succeeds (c : pyclass) (t : ClientResponse) (resp : instance)
    : Prop :=
  decoded c t = Some resp ∧ rate_limited t resp = false ∧
  isinstance (PyInst resp) BaseResponse = true.

(** The wait the specification asks for after a rate-limited response: the
    field's value over 1000 when it is present and non-zero, 5 seconds
    otherwise. *)
Definition spec_wait (resp : instance) : Q :=
  match inst_attrs resp !! "retry_after_ms" with
  | Some (VInt z) => if Z.eqb z 0 then 5%Q else Qred (z # 1000)
  | _ => 5%Q
  end.

Definition limited_wait (c : pyclass) (t : ClientResponse) : Q :=
  match decoded c t with
  | Some resp => spec_wait resp
  | None => 5%Q
  end.

(** The events of the turns that end in a rate-limit retry. *)
Definition limited_turns (c : pyclass) (r : Request)
    (ts : list ClientResponse) : list event :=
  flat_map (fun t => [EvRequest r; EvSleep (limited_wait c t)]) ts.

(** The events of [n] turns that end in a timeout retry, the counter
    standing at [got] before the first. *)
Fixpoint timeout_turns (r : Request) (got : Z) (n : nat) : list event :=
  match n with
  | O => []
  | S n =>
      EvRequest r :: EvSleep (get_timeout_retry_wait_time (got + 1))
        :: timeout_turns r (got + 1) n
  end.

(** [k] failures stay within a ceiling. *)
Definition within (max : option Z) (k : nat) : Prop :=
  match max with
  | None => True
  | Some m => Z.of_nat k <= m
  end.

Definition is_request (e : event) : bool :=
  match e with
  | EvRequest _ => true
  | _ => false
  end.

Definition is_sleep (e : event) : bool :=
  match e with
  | EvSleep _ => true
  | _ => false
  end.

(** Number of requests, and of sleeps, among logged events. *)
Definition requests (tr : list event) : nat :=
  length (List.filter is_request tr).
Definition sleeps (tr : list event) : nat :=
  length (List.filter is_sleep tr).

(** The request every turn of one [api_send] call issues. *)
Definition api_request (c : AsyncClient) (response_class : pyobj)
    (method path : string) (data : option string)
    (content_type : option string) (timeout : option Q)
    (content_length : option Z) : Request :=
  send_request c method path data
    (Some (api_send_headers c response_class content_type content_length))
    timeout.

(** What [api_send] makes of the way its loop ended: a response goes
    through [receive_response] and is returned. *)
Definition finish (x : outcome instance * world) : outcome instance * world :=
  match x with
  | (Ret resp, w') =>
      if isinstance (PyInst resp) BaseResponse
      then (Ret resp, received (PyInst resp) w')
      else (Raise ValueError, w')
  | (Raise e, w') => (Raise e, w')
  | (Pending, w') => (Pending, w')
  end.

(** ** Worlds along a call *)

Ltac destruct_world w :=
  let c := fresh "c" in
  let sess := fresh "sess" in
  destruct w as [c ? ? ?]; destruct c as [sess ? ? ? ? ?];
  destruct sess; simpl in *.

Lemma ensure_session_after w rest tr :
  ensure_session (after w rest tr) = after w rest tr.
Proof. destruct_world w; reflexivity. Qed.

Lemma after_after w rest1 tr1 rest2 tr2 :
  after (after w rest1 tr1) rest2 tr2 = after w rest2 (tr1 ++ tr2).
Proof.
  destruct_world w; unfold after; simpl; by rewrite app_assoc.
Qed.

Lemma self_after_fields w rest tr :
  current_session (self (after w rest tr)) = current_session (self w) ∧
  server (self (after w rest tr)) = server (self w) ∧
  ssl (self (after w rest tr)) = ssl (self w) ∧
  proxy (self (after w rest tr)) = proxy (self w) ∧
  config (self (after w rest tr)) = config (self w) ∧
  access_token (self (after w rest tr)) = access_token (self w).
Proof. destruct_world w; repeat split. Qed.

Lemma send_request_after w rest tr method path data headers timeout :
  send_request (self (after w rest tr)) method path data headers timeout =
  send_request (self w) method path data headers timeout.
Proof. destruct_world w; reflexivity. Qed.

Lemma network_after w rest tr : network (after w rest tr) = rest.
Proof. reflexivity. Qed.

Lemma log_after w rest tr : log (after w rest tr) = log w ++ tr.
Proof. reflexivity. Qed.

(** [send] makes sure of the session and issues exactly one request. *)
Lemma send_run w method path data headers timeout :
  send method path data headers timeout w =
  request (send_request (self w) method path data headers timeout)
    (ensure_session w).
Proof. destruct_world w; reflexivity. Qed.

Lemma send_answer w a rest method path data headers timeout :
  network w = a :: rest →
  send method path data headers timeout w =
  (match a with inl e => Raise e | inr t => Ret t end,
   after w rest
     [EvRequest (send_request (self w) method path data headers timeout)]).
Proof.
  intros Hn. rewrite send_run.
  destruct_world w; subst; destruct a; reflexivity.
Qed.

Lemma send_pending w method path data headers timeout :
  network w = [] →
  send method path data headers timeout w =
  (Pending,
   after w []
     [EvRequest (send_request (self w) method path data headers timeout)]).
Proof.
  intros Hn. rewrite send_run. destruct_world w; subst; reflexivity.
Qed.

Lemma default_wait_ok : float_div_ok 5000 = true.
Proof. vm_compute. reflexivity. Qed.

(** The division of the retry loop: after [or 5000] the value is a non-zero
    integer, and the quotient, when it is a float, is the wait the
    specification names. *)
Lemma truediv_retry_after resp :
  truediv_1000 (retry_after_ms resp) =
  if wait_ok resp then inr (spec_wait resp) else inl OverflowError.
Proof.
  unfold wait_ok, retry_after_ms, spec_wait, getattr, py_or.
  destruct (inst_attrs resp !! "retry_after_ms") as [[|z]|];
    unfold truthy, truediv_1000; cbv beta iota;
    rewrite ?default_wait_ok; try done.
  destruct (Z.eqb z 0); cbv beta iota; by rewrite ?default_wait_ok.
Qed.

Lemma add_log_after w rest tr e :
  add_log e (after w rest tr) = after w rest (tr ++ [e]).
Proof. destruct_world w; unfold after, add_log; simpl; by rewrite app_assoc. Qed.

(** ** One turn of the loop *)

Section Turn.

Variables (c : pyclass) (method path : string) (data : option string).
Variables (response_data : option (list pyval)).
Variables (headers : gmap string string) (timeout : option Q).
Variables (max_429 max_timeouts : option Z).

Let req (w : world) : Request :=
  send_request (self w) method path data (Some headers) timeout.

Let turn (response_class : pyobj) :=
  api_send_turn response_class method path data response_data headers timeout
    max_429 max_timeouts.

Let loop (fuel : nat) (response_class : pyobj) :=
  api_send_loop fuel response_class method path data response_data headers
    timeout max_429 max_timeouts.

Ltac run_turn Hn :=
  unfold turn, api_send_turn, try_except, bind;
  rewrite (send_answer _ _ _ _ _ _ _ _ Hn); cbv beta iota.

Lemma turn_pending response_class w got_429 got_timeouts :
  network w = [] →
  turn response_class got_429 got_timeouts w =
  (Pending, after w [] [EvRequest (req w)]).
Proof.
  intros Hn. unfold turn, api_send_turn, try_except, bind.
  by rewrite (send_pending _ _ _ _ _ _ Hn).
Qed.

Lemma turn_success w t rest resp got_429 got_timeouts :
  network w = inr t :: rest →
  decoded c t = Some resp →
  rate_limited t resp = false →
  turn (PyClass c) got_429 got_timeouts w =
  (Ret (Break resp), after w rest [EvRequest (req w)]).
Proof.
  intros Hn Hd Hl. run_turn Hn.
  unfold parse_wire_response, decoded, bind, lift in *.
  destruct (json_body t) as [e|content]; [done|]. simpl.
  destruct (call_parse_data c content) as [e|resp0]; [done|].
  simpl. injection Hd as <-. by rewrite Hl.
Qed.

Lemma turn_limited_retry w t rest resp got_429 got_timeouts :
  network w = inr t :: rest →
  decoded c t = Some resp →
  rate_limited t resp = true →
  exceeds max_429 (got_429 + 1) = false →
  wait_ok resp = true →
  turn (PyClass c) got_429 got_timeouts w =
  (Ret (Continue (got_429 + 1) got_timeouts),
   after w rest [EvRequest (req w); EvSleep (spec_wait resp)]).
Proof.
  intros Hn Hd Hl Hx Hok. run_turn Hn.
  unfold parse_wire_response, decoded, bind, lift in *.
  destruct (json_body t) as [e|content]; [done|]. simpl.
  destruct (call_parse_data c content) as [e|resp0]; [done|].
  simpl. injection Hd as <-. rewrite Hl, Hx, truediv_retry_after, Hok.
  unfold ret, sleep. by rewrite add_log_after.
Qed.

(** A wait that is no float ends the call in an overflow error, which the
    handler does not catch. *)
Lemma turn_overflow w t rest resp got_429 got_timeouts :
  network w = inr t :: rest →
  decoded c t = Some resp →
  rate_limited t resp = true →
  exceeds max_429 (got_429 + 1) = false →
  wait_ok resp = false →
  turn (PyClass c) got_429 got_timeouts w =
  (Raise OverflowError, after w rest [EvRequest (req w)]).
Proof.
  intros Hn Hd Hl Hx Hok. run_turn Hn.
  unfold parse_wire_response, decoded, bind, lift in *.
  destruct (json_body t) as [e|content]; [done|]. simpl.
  destruct (call_parse_data c content) as [e|resp0]; [done|].
  simpl. injection Hd as <-. by rewrite Hl, Hx, truediv_retry_after, Hok.
Qed.

Lemma turn_limited_stop w t rest resp got_429 got_timeouts :
  network w = inr t :: rest →
  decoded c t = Some resp →
  rate_limited t resp = true →
  exceeds max_429 (got_429 + 1) = true →
  turn (PyClass c) got_429 got_timeouts w =
  (Ret (Break resp), after w rest [EvRequest (req w)]).
Proof.
  intros Hn Hd Hl Hx. run_turn Hn.
  unfold parse_wire_response, decoded, bind, lift in *.
  destruct (json_body t) as [e|content]; [done|]. simpl.
  destruct (call_parse_data c content) as [e|resp0]; [done|].
  simpl. injection Hd as <-. by rewrite Hl, Hx.
Qed.

Lemma turn_error_retry response_class w e rest got_429 got_timeouts :
  network w = inl e :: rest →
  except_matches retry_errors e = true →
  exceeds max_timeouts (got_timeouts + 1) = false →
  turn response_class got_429 got_timeouts w =
  (Ret (Continue got_429 (got_timeouts + 1)),
   after w rest
     [EvRequest (req w);
      EvSleep (get_timeout_retry_wait_time (got_timeouts + 1))]).
Proof.
  intros Hn He Hx. run_turn Hn. rewrite He, Hx.
  unfold sleep. by rewrite add_log_after.
Qed.

Lemma turn_error_stop response_class w e rest got_429 got_timeouts :
  network w = inl e :: rest →
  except_matches retry_errors e = true →
  exceeds max_timeouts (got_timeouts + 1) = true →
  turn response_class got_429 got_timeouts w =
  (Raise e, after w rest [EvRequest (req w)]).
Proof. intros Hn He Hx. run_turn Hn. by rewrite He, Hx. Qed.

Lemma turn_body_unreadable response_class w t e rest got_429 got_timeouts :
  network w = inr t :: rest →
  json_body t = inl e →
  except_matches retry_errors e = false →
  turn response_class got_429 got_timeouts w =
  (Raise e, after w rest [EvRequest (req w)]).
Proof.
  intros Hn Hj He. run_turn Hn.
  unfold parse_wire_response, bind, lift, raise. rewrite Hj.
  cbv beta iota. by rewrite He.
Qed.

(** ** Runs of turns *)

Lemma exceeds_mono max got got' :
  exceeds max got = false → got' <= got → exceeds max got' = false.
Proof.
  destruct max as [m|]; simpl; [|done].
  rewrite !Z.ltb_ge. lia.
Qed.

Lemma limited_decoded t :
  limited c t = true →
  ∃ resp, decoded c t = Some resp ∧ rate_limited t resp = true ∧
          wait_ok resp = true ∧ limited_wait c t = spec_wait resp.
Proof.
  unfold limited, limited_wait. destruct (decoded c t) as [resp|]; [|done].
  intros H. apply andb_true_iff in H as [Hl Hok]. by exists resp.
Qed.

(** A turn starts by making sure of the session, so it runs alike in a
    world where that has been done. *)
Lemma after_nil w : after w (network w) [] = ensure_session w.
Proof. destruct_world w; unfold after; simpl; by rewrite app_nil_r. Qed.

Lemma loop_ensure response_class fuel w got_429 got_timeouts :
  loop (S fuel) response_class got_429 got_timeouts w =
  loop (S fuel) response_class got_429 got_timeouts (after w (network w) []).
Proof.
  unfold loop. simpl api_send_loop.
  unfold bind, api_send_turn, try_except, bind.
  rewrite !send_run, ensure_session_after, send_request_after.
  by rewrite after_nil.
Qed.

(** Rate-limited answers within the ceiling are slept over one by one. *)
Lemma loop_limited_run ts : ∀ w rest fuel got_429 got_timeouts,
  network w = map inr ts ++ rest →
  Forall (λ t, limited c t = true) ts →
  exceeds max_429 (got_429 + Z.of_nat (length ts)) = false →
  loop (length ts + S fuel) (PyClass c) got_429 got_timeouts w =
  loop (S fuel) (PyClass c) (got_429 + Z.of_nat (length ts)) got_timeouts
    (after w rest (limited_turns c (req w) ts)).
Proof.
  induction ts as [|t ts IH]; intros w rest fuel got_429 got_timeouts Hn Hall Hx.
  - simpl in *. rewrite Z.add_0_r, <- Hn. apply loop_ensure.
  - apply Forall_cons in Hall as [Ht Hall].
    destruct (limited_decoded t Ht) as (resp & Hd & Hl & Hok & Hw).
    assert (Hx1 : exceeds max_429 (got_429 + 1) = false).
    { apply (exceeds_mono _ _ _ Hx). simpl length. lia. }
    simpl length. simpl plus. unfold loop. simpl api_send_loop. unfold bind.
    fold (turn (PyClass c)).
    rewrite (turn_limited_retry w t (map inr ts ++ rest) resp _ _ Hn Hd Hl
               Hx1 Hok).
    fold (loop (length ts + S fuel) (PyClass c)).
    rewrite (IH _ rest); [| done | done |].
    + rewrite after_after. unfold req. rewrite send_request_after.
      fold (req w). simpl limited_turns. rewrite Hw.
      replace (got_429 + 1 + Z.of_nat (length ts))
        with (got_429 + Z.of_nat (S (length ts))) by lia.
      done.
    + replace (got_429 + 1 + Z.of_nat (length ts))
        with (got_429 + Z.of_nat (S (length ts))) by lia.
      done.
Qed.

(** Connection and timeout errors within the ceiling likewise. *)
Lemma loop_timeout_run response_class es : ∀ w rest fuel got_429 got_timeouts,
  network w = map inl es ++ rest →
  Forall (λ e, except_matches retry_errors e = true) es →
  exceeds max_timeouts (got_timeouts + Z.of_nat (length es)) = false →
  loop (length es + S fuel) response_class got_429 got_timeouts w =
  loop (S fuel) response_class got_429 (got_timeouts + Z.of_nat (length es))
    (after w rest (timeout_turns (req w) got_timeouts (length es))).
Proof.
  induction es as [|e es IH]; intros w rest fuel got_429 got_timeouts Hn Hall Hx.
  - simpl in *. rewrite Z.add_0_r, <- Hn. apply loop_ensure.
  - apply Forall_cons in Hall as [He Hall].
    assert (Hx1 : exceeds max_timeouts (got_timeouts + 1) = false).
    { apply (exceeds_mono _ _ _ Hx). simpl length. lia. }
    simpl length. simpl plus. unfold loop. simpl api_send_loop. unfold bind.
    fold (turn response_class).
    rewrite (turn_error_retry response_class w e (map inl es ++ rest) _ _
               Hn He Hx1).
    fold (loop (length es + S fuel) response_class).
    rewrite (IH _ rest); [| done | done |].
    + rewrite after_after. unfold req. rewrite send_request_after.
      fold (req w). simpl timeout_turns.
      replace (got_timeouts + 1 + Z.of_nat (length es))
        with (got_timeouts + Z.of_nat (S (length es))) by lia.
      done.
    + replace (got_timeouts + 1 + Z.of_nat (length es))
        with (got_timeouts + Z.of_nat (S (length es))) by lia.
      done.
Qed.

(** ** How the loop ends *)

Ltac one_turn lem :=
  unfold loop; simpl api_send_loop; unfold bind;
  fold (turn (PyClass c)); rewrite lem.

Lemma loop_success w t rest resp fuel got_429 got_timeouts :
  network w = inr t :: rest →
  decoded c t = Some resp →
  rate_limited t resp = false →
  loop (S fuel) (PyClass c) got_429 got_timeouts w =
  (Ret resp, after w rest [EvRequest (req w)]).
Proof.
  intros Hn Hd Hl.
  by one_turn (turn_success w t rest resp got_429 got_timeouts Hn Hd Hl).
Qed.

Lemma loop_limited_stop w t rest resp fuel got_429 got_timeouts :
  network w = inr t :: rest →
  decoded c t = Some resp →
  rate_limited t resp = true →
  exceeds max_429 (got_429 + 1) = true →
  loop (S fuel) (PyClass c) got_429 got_timeouts w =
  (Ret resp, after w rest [EvRequest (req w)]).
Proof.
  intros Hn Hd Hl Hx.
  by one_turn (turn_limited_stop w t rest resp got_429 got_timeouts Hn Hd Hl Hx).
Qed.

Lemma loop_error_stop response_class w e rest fuel got_429 got_timeouts :
  network w = inl e :: rest →
  except_matches retry_errors e = true →
  exceeds max_timeouts (got_timeouts + 1) = true →
  loop (S fuel) response_class got_429 got_timeouts w =
  (Raise e, after w rest [EvRequest (req w)]).
Proof.
  intros Hn He Hx. unfold loop. simpl api_send_loop. unfold bind.
  fold (turn response_class).
  by rewrite (turn_error_stop response_class w e rest got_429 got_timeouts
                Hn He Hx).
Qed.

Lemma loop_body_unreadable response_class w t e rest fuel got_429 got_timeouts :
  network w = inr t :: rest →
  json_body t = inl e →
  except_matches retry_errors e = false →
  loop (S fuel) response_class got_429 got_timeouts w =
  (Raise e, after w rest [EvRequest (req w)]).
Proof.
  intros Hn Hj He. unfold loop. simpl api_send_loop. unfold bind.
  fold (turn response_class).
  by rewrite (turn_body_unreadable response_class w t e rest got_429
                got_timeouts Hn Hj He).
Qed.

Lemma loop_pending response_class w fuel got_429 got_timeouts :
  network w = [] →
  loop (S fuel) response_class got_429 got_timeouts w =
  (Pending, after w [] [EvRequest (req w)]).
Proof.
  intros Hn. unfold loop. simpl api_send_loop. unfold bind.
  fold (turn response_class).
  by rewrite (turn_pending response_class w got_429 got_timeouts Hn).
Qed.

End Turn.

(** ** Counting requests and sleeps *)

Lemma requests_app tr1 tr2 : requests (tr1 ++ tr2) = (requests tr1 + requests tr2)%nat.
Proof. unfold requests. by rewrite List.filter_app, length_app. Qed.

Lemma sleeps_app tr1 tr2 : sleeps (tr1 ++ tr2) = (sleeps tr1 + sleeps tr2)%nat.
Proof. unfold sleeps. by rewrite List.filter_app, length_app. Qed.

Lemma count_limited_turns c r ts :
  requests (limited_turns c r ts) = length ts ∧
  sleeps (limited_turns c r ts) = length ts.
Proof.
  induction ts as [|t ts [IHr IHs]]; [done|].
  unfold requests, sleeps in *. simpl. by rewrite IHr, IHs.
Qed.

Lemma count_timeout_turns r n : ∀ got,
  requests (timeout_turns r got n) = n ∧ sleeps (timeout_turns r got n) = n.
Proof.
  induction n as [|n IH]; intros got; [done|].
  destruct (IH (got + 1)) as [IHr IHs].
  unfold requests, sleeps in *. simpl. by rewrite IHr, IHs.
Qed.

Lemma within_exceeds max k :
  within max k → exceeds max (Z.of_nat k) = false.
Proof.
  destruct max as [m|]; simpl; [|done]. intros H. apply Z.ltb_ge. lia.
Qed.

(** ** The whole call *)

(** [api_send] is its loop followed by [receive_response]. *)
Lemma api_send_unfold response_class method path data response_data
    content_type timeout content_length w :
  api_send response_class method path data response_data content_type timeout
    content_length w =
  finish
    (api_send_loop (S (length (network w))) response_class method path data
       response_data
       (api_send_headers (self w) response_class content_type content_length)
       timeout (max_limit_exceeded (config (self w)))
       (max_timeouts (config (self w))) 0 0 w).
Proof.
  unfold api_send, bind, receive_response, finish.
  destruct (api_send_loop _ _ _ _ _ _ _ _ _ _ _ _ w) as [[resp|e|] w']; try done.
  by destruct (isinstance (PyInst resp) BaseResponse).
Qed.

Section Call.

Variables (w : world) (method path : string) (data : option string).
Variables (response_data : option (list pyval)).
Variables (content_type : option string) (timeout : option Q).
Variables (content_length : option Z).

(** The call after a run of rate-limited answers within the ceiling. *)
Lemma api_send_limited_run c ts rest :
  network w = map inr ts ++ rest →
  Forall (λ t, limited c t = true) ts →
  within (max_limit_exceeded (config (self w))) (length ts) →
  api_send (PyClass c) method path data response_data content_type timeout
    content_length w =
  finish
    (api_send_loop (S (length rest)) (PyClass c) method path data
       response_data
       (api_send_headers (self w) (PyClass c) content_type content_length)
       timeout (max_limit_exceeded (config (self w)))
       (max_timeouts (config (self w))) (Z.of_nat (length ts)) 0
       (after w rest
          (limited_turns c
             (api_request (self w) (PyClass c) method path data content_type
                timeout content_length) ts))).
Proof.
  intros Hn Hall Hin. rewrite api_send_unfold.
  replace (S (length (network w))) with (length ts + S (length rest))%nat
    by (rewrite Hn, length_app, length_map; lia).
  pose proof (loop_limited_run c method path data response_data
    (api_send_headers (self w) (PyClass c) content_type content_length)
    timeout (max_limit_exceeded (config (self w)))
    (max_timeouts (config (self w))) ts w rest (length rest) 0 0
    Hn Hall (within_exceeds _ _ Hin)) as Hrun.
  cbv zeta in Hrun. by rewrite Hrun.
Qed.

(** The call after a run of connection and timeout errors within the
    ceiling. *)
Lemma api_send_timeout_run response_class es rest :
  network w = map inl es ++ rest →
  Forall (λ e, except_matches retry_errors e = true) es →
  within (max_timeouts (config (self w))) (length es) →
  api_send response_class method path data response_data content_type timeout
    content_length w =
  finish
    (api_send_loop (S (length rest)) response_class method path data
       response_data
       (api_send_headers (self w) response_class content_type content_length)
       timeout (max_limit_exceeded (config (self w)))
       (max_timeouts (config (self w))) 0 (Z.of_nat (length es))
       (after w rest
          (timeout_turns
             (api_request (self w) response_class method path data
                content_type timeout content_length) 0 (length es)))).
Proof.
  intros Hn Hall Hin. rewrite api_send_unfold.
  replace (S (length (network w))) with (length es + S (length rest))%nat
    by (rewrite Hn, length_app, length_map; lia).
  pose proof (loop_timeout_run method path data response_data
    (api_send_headers (self w) response_class content_type content_length)
    timeout (max_limit_exceeded (config (self w)))
    (max_timeouts (config (self w))) response_class es w rest (length rest)
    0 0 Hn Hall (within_exceeds _ _ Hin)) as Hrun.
  cbv zeta in Hrun. by rewrite Hrun.
Qed.

(** C2, amended: K rate-limited answers within the ceiling, each with a
    body that decodes and a wait that is a float, followed by a success:
    [api_send] issues K + 1 requests, sleeps after each of the first K for
    the wait the answer asks for ([retry_after_ms / 1000] seconds when the
    field is present and non-zero, 5 seconds otherwise), hands the success
    variant to [receive_response] and returns it. With K = 0 it returns on
    the first attempt without any sleep. *)
Theorem api_send_rate_limited_then_success c ts ok resp rest :
  network w = map inr ts ++ inr ok :: rest →
  Forall (λ t, limited c t = true) ts →
  within (max_limit_exceeded (config (self w))) (length ts) →
  succeeds c ok resp →
  let r := api_request (self w) (PyClass c) method path data content_type
             timeout content_length in
  let tr := limited_turns c r ts ++ [EvRequest r] in
  api_send (PyClass c) method path data response_data content_type timeout
    content_length w = (Ret resp, received (PyInst resp) (after w rest tr)) ∧
  requests tr = S (length ts) ∧ sleeps tr = length ts.
Proof.
  intros Hn Hall Hin (Hd & Hl & Hb) r tr. split.
  - rewrite (api_send_limited_run c ts _ Hn Hall Hin). fold r.
    pose proof (loop_success c method path data response_data
      (api_send_headers (self w) (PyClass c) content_type content_length)
      timeout (max_limit_exceeded (config (self w)))
      (max_timeouts (config (self w)))
      (after w (inr ok :: rest) (limited_turns c r ts)) ok rest resp
      (S (length rest)) (Z.of_nat (length ts)) 0 eq_refl Hd Hl) as Hlast.
    cbv zeta in Hlast. simpl length. rewrite Hlast. unfold finish.
    rewrite Hb, after_after, send_request_after. by subst tr.
  - subst tr. rewrite requests_app, sleeps_app.
    destruct (count_limited_turns c r ts) as [-> ->].
    unfold requests, sleeps. simpl. lia.
Qed.

(** C3, amended: with a ceiling of K, K + 1 rate-limited answers in a row,
    each with a body that decodes and the first K with a wait that is a
    float: [api_send] retries K times, sleeping before each retry, then
    stops at answer K + 1 and returns its variant, after handing it to
    [receive_response]; nothing is raised and no later answer is asked
    for. *)
Theorem api_send_rate_limit_exhausted c ts last resp rest :
  max_limit_exceeded (config (self w)) = Some (Z.of_nat (length ts)) →
  network w = map inr ts ++ inr last :: rest →
  Forall (λ t, limited c t = true) ts →
  decoded c last = Some resp →
  rate_limited last resp = true →
  isinstance (PyInst resp) BaseResponse = true →
  let r := api_request (self w) (PyClass c) method path data content_type
             timeout content_length in
  let tr := limited_turns c r ts ++ [EvRequest r] in
  api_send (PyClass c) method path data response_data content_type timeout
    content_length w = (Ret resp, received (PyInst resp) (after w rest tr)) ∧
  requests tr = S (length ts) ∧ sleeps tr = length ts.
Proof.
  intros Hmax Hn Hall Hd Hl Hb r tr. split.
  - assert (Hin : within (max_limit_exceeded (config (self w))) (length ts))
      by (rewrite Hmax; simpl; lia).
    rewrite (api_send_limited_run c ts _ Hn Hall Hin). fold r.
    assert (Hx : exceeds (max_limit_exceeded (config (self w)))
                   (Z.of_nat (length ts) + 1) = true)
      by (rewrite Hmax; simpl; apply Z.ltb_lt; lia).
    pose proof (loop_limited_stop c method path data response_data
      (api_send_headers (self w) (PyClass c) content_type content_length)
      timeout (max_limit_exceeded (config (self w)))
      (max_timeouts (config (self w)))
      (after w (inr last :: rest) (limited_turns c r ts)) last rest resp
      (S (length rest)) (Z.of_nat (length ts)) 0 eq_refl Hd Hl Hx) as Hlast.
    cbv zeta in Hlast. simpl length. rewrite Hlast. unfold finish.
    rewrite Hb, after_after, send_request_after. by subst tr.
  - subst tr. rewrite requests_app, sleeps_app.
    destruct (count_limited_turns c r ts) as [-> ->].
    unfold requests, sleeps. simpl. lia.
Qed.

(** C4: K connection or timeout errors within the ceiling followed by a
    success: [api_send] issues K + 1 requests, sleeps after the i-th error
    for the wait the backoff policy gives for i, and returns the success
    variant. With a ceiling of K and K + 1 such errors in a row it retries K
    times and then re-raises the error of attempt K + 1. *)
Theorem api_send_timeouts c response_class es rest :
  Forall (λ e, except_matches retry_errors e = true) es →
  let r := λ rc, api_request (self w) rc method path data content_type
                   timeout content_length in
  (∀ ok resp,
     network w = map inl es ++ inr ok :: rest →
     within (max_timeouts (config (self w))) (length es) →
     succeeds c ok resp →
     let tr := timeout_turns (r (PyClass c)) 0 (length es) ++
               [EvRequest (r (PyClass c))] in
     api_send (PyClass c) method path data response_data content_type timeout
       content_length w =
     (Ret resp, received (PyInst resp) (after w rest tr)) ∧
     requests tr = S (length es) ∧ sleeps tr = length es) ∧
  (∀ e,
     network w = map inl es ++ inl e :: rest →
     max_timeouts (config (self w)) = Some (Z.of_nat (length es)) →
     except_matches retry_errors e = true →
     let tr := timeout_turns (r response_class) 0 (length es) ++
               [EvRequest (r response_class)] in
     api_send response_class method path data response_data content_type
       timeout content_length w = (Raise e, after w rest tr) ∧
     requests tr = S (length es) ∧ sleeps tr = length es).
Proof.
  intros Hall r. split.
  - intros ok resp Hn Hin (Hd & Hl & Hb) tr. split.
    + rewrite (api_send_timeout_run (PyClass c) es _ Hn Hall Hin).
      fold (r (PyClass c)).
      pose proof (loop_success c method path data response_data
        (api_send_headers (self w) (PyClass c) content_type content_length)
        timeout (max_limit_exceeded (config (self w)))
        (max_timeouts (config (self w)))
        (after w (inr ok :: rest)
           (timeout_turns (r (PyClass c)) 0 (length es))) ok rest resp
        (S (length rest)) 0 (Z.of_nat (length es)) eq_refl Hd Hl) as Hlast.
      cbv zeta in Hlast. simpl length. rewrite Hlast. unfold finish.
      rewrite Hb, after_after, send_request_after. by subst tr.
    + subst tr. rewrite requests_app, sleeps_app.
      destruct (count_timeout_turns (r (PyClass c)) (length es) 0) as [-> ->].
      unfold requests, sleeps. simpl. lia.
  - intros e Hn Hmax He tr. split.
    + assert (Hin : within (max_timeouts (config (self w))) (length es))
        by (rewrite Hmax; simpl; lia).
      rewrite (api_send_timeout_run response_class es _ Hn Hall Hin).
      fold (r response_class).
      assert (Hx : exceeds (max_timeouts (config (self w)))
                     (Z.of_nat (length es) + 1) = true)
        by (rewrite Hmax; simpl; apply Z.ltb_lt; lia).
      pose proof (loop_error_stop method path data response_data
        (api_send_headers (self w) response_class content_type content_length)
        timeout (max_limit_exceeded (config (self w)))
        (max_timeouts (config (self w))) response_class
        (after w (inl e :: rest)
           (timeout_turns (r response_class) 0 (length es))) e rest
        (S (length rest)) 0 (Z.of_nat (length es)) eq_refl He Hx) as Hlast.
      cbv zeta in Hlast. simpl length. rewrite Hlast. unfold finish.
      rewrite after_after, send_request_after. by subst tr.
    + subst tr. rewrite requests_app, sleeps_app.
      destruct (count_timeout_turns (r response_class) (length es) 0)
        as [-> ->].
      unfold requests, sleeps. simpl. lia.
Qed.

(** A decode error is none of the errors the retry handler catches. *)
Lemma decode_error_not_retried e :
  decode_error e = true → except_matches retry_errors e = false.
Proof.
  unfold decode_error. intros H. apply bool_decide_eq_true in H.
  by destruct H as [-> | ->].
Qed.

(** C7: an answer whose body cannot be decoded ends the call at once. In any
    turn of the loop, whatever the two counters stand at, the decode error
    is raised out of the loop: the turn logs its request and nothing else
    (no sleep), and the rest of the script is left unread (no retry). So
    does [api_send] when its first answer is such. *)
Theorem decode_failure_surfaces response_class t e rest :
  network w = inr t :: rest →
  json_body t = inl e →
  decode_error e = true →
  (∀ fuel headers max_429 max_timeouts got_429 got_timeouts,
     api_send_loop (S fuel) response_class method path data response_data
       headers timeout max_429 max_timeouts got_429 got_timeouts w =
     (Raise e,
      after w rest
        [EvRequest
           (send_request (self w) method path data (Some headers) timeout)])) ∧
  api_send response_class method path data response_data content_type timeout
    content_length w =
  (Raise e,
   after w rest
     [EvRequest
        (api_request (self w) response_class method path data content_type
           timeout content_length)]).
Proof.
  intros Hn Hj He. apply decode_error_not_retried in He.
  assert (Hloop : ∀ fuel headers max_429 max_to got_429 got_timeouts,
     api_send_loop (S fuel) response_class method path data response_data
       headers timeout max_429 max_to got_429 got_timeouts w =
     (Raise e,
      after w rest
        [EvRequest
           (send_request (self w) method path data (Some headers) timeout)])).
  { intros. apply (loop_body_unreadable method path data response_data
      headers timeout max_429 max_to response_class w t e rest fuel
      got_429 got_timeouts Hn Hj He). }
  split; [exact Hloop|].
  by rewrite api_send_unfold, Hloop.
Qed.

(** C10: an answer with any status other than 429 whose body decodes to a
    variant that is no [ErrorResponse] ends the loop in whatever turn it
    arrives: the variant is returned with no sleep and no further request,
    and [api_send] hands it to [receive_response] and returns it. *)
Theorem non_error_answer_is_terminal c t resp rest :
  network w = inr t :: rest →
  status t ≠ 429 →
  decoded c t = Some resp →
  isinstance (PyInst resp) ErrorResponse = false →
  isinstance (PyInst resp) BaseResponse = true →
  (∀ fuel headers max_429 max_timeouts got_429 got_timeouts,
     api_send_loop (S fuel) (PyClass c) method path data response_data
       headers timeout max_429 max_timeouts got_429 got_timeouts w =
     (Ret resp,
      after w rest
        [EvRequest
           (send_request (self w) method path data (Some headers) timeout)])) ∧
  let r := api_request (self w) (PyClass c) method path data content_type
             timeout content_length in
  api_send (PyClass c) method path data response_data content_type timeout
    content_length w =
  (Ret resp, received (PyInst resp) (after w rest [EvRequest r])).
Proof.
  intros Hn Hs Hd He Hb.
  assert (Hl : rate_limited t resp = false).
  { unfold rate_limited. rewrite He, orb_false_r. by apply Z.eqb_neq. }
  assert (Hloop : ∀ fuel headers max_429 max_to got_429 got_timeouts,
     api_send_loop (S fuel) (PyClass c) method path data response_data
       headers timeout max_429 max_to got_429 got_timeouts w =
     (Ret resp,
      after w rest
        [EvRequest
           (send_request (self w) method path data (Some headers) timeout)])).
  { intros. apply (loop_success c method path data response_data headers
      timeout max_429 max_to w t rest resp fuel got_429 got_timeouts
      Hn Hd Hl). }
  split; [exact Hloop|]. intros r.
  rewrite api_send_unfold, Hloop. unfold finish. by rewrite Hb.
Qed.

End Call.

(** ** Headers and decoding *)

(** A class object is an instance of its metaclass, never of itself. *)
Lemma isinstance_class_object c d :
  d ≠ TypeCls → d ≠ Object → isinstance (PyClass c) d = false.
Proof. intros H1 H2. by destruct d. Qed.

(** C1: the guard that is meant to leave [Authorization] out of a login
    call tests whether [response_class] is an instance of [LoginResponse];
    the callers pass the class itself, so the test fails for every class,
    the login class included, and the header is always set to the bearer
    token. *)
Theorem api_send_headers_class_authorization client c content_type
    content_length :
  api_send_headers client (PyClass c) content_type content_length
    !! "Authorization" =
  Some ("Bearer " +:+ str_opt (access_token client)).
Proof.
  unfold api_send_headers.
  rewrite (isinstance_class_object c LoginResponse) by done. simpl negb.
  destruct content_length; by simplify_map_eq.
Qed.

(** Only an instance of the login class would have the header left out. *)
Lemma api_send_headers_login_instance client attrs content_type :
  api_send_headers client (PyInst (Instance LoginResponse attrs)) content_type
    None !! "Authorization" = None.
Proof. unfold api_send_headers. by simplify_map_eq. Qed.

(** C6: the extra construction data plays no part in decoding: whatever
    tuple the caller supplies, [parse_wire_response] builds the variant from
    the class and the decoded payload alone. *)
Theorem parse_wire_response_ignores_data response_class transport_response
    data1 data2 :
  parse_wire_response response_class transport_response data1 =
  parse_wire_response response_class transport_response data2.
Proof. reflexivity. Qed.

(** ** The session and [send] *)

(** The world [send] leaves behind. *)
Lemma send_world w method path data headers timeout :
  (send method path data headers timeout w).2 =
  after w (tail (network w))
    [EvRequest (send_request (self w) method path data headers timeout)].
Proof.
  destruct (network w) as [|a rest] eqn:Hn.
  - by rewrite (send_pending _ _ _ _ _ _ Hn).
  - by rewrite (send_answer _ _ _ _ _ _ _ _ Hn).
Qed.

(** C8: a [send] that finds no session creates exactly one, with the
    configured request timeout as its total timeout and a connector whose
    every new connection gets a write-buffer limit of 16 KiB, and sends its
    request on it; a [send] that finds a session creates none, leaves the
    client as it is and sends its request on that session. *)
Theorem client_session_lazy_idempotent w method path data headers timeout :
  let w' := (send method path data headers timeout w).2 in
  (client_session (self w) = None →
   ∃ s r,
     client_session (self w') = Some s ∧
     sessions_created w' = sessions_created w ++ [s] ∧
     timeout_total s = request_timeout (config (self w)) ∧
     (∀ raw, write_buffer_high (connector_connect s raw) = 16384) ∧
     log w' = log w ++ [EvRequest r] ∧ req_session r = s) ∧
  (∀ s,
     client_session (self w) = Some s →
     ∃ r,
       self w' = self w ∧
       sessions_created w' = sessions_created w ∧
       log w' = log w ++ [EvRequest r] ∧ req_session r = s).
Proof.
  intros w'. subst w'. rewrite send_world. split.
  - intros Hs. destruct w as [[sess ? ? ? ? ?] ? ? ?]. simpl in Hs. subst sess.
    eexists _, _. repeat split.
  - intros s Hs. destruct w as [[sess ? ? ? ? ?] ? ? ?]. simpl in Hs.
    subst sess. eexists. repeat split.
Qed.

(** C9: the request [send] issues has the per-call timeout when one is
    given and the configured request timeout otherwise, and its URL is the
    server's base URL followed by the path. *)
Theorem send_timeout_and_url w method path data headers timeout :
  let r := send_request (self w) method path data headers timeout in
  log (send method path data headers timeout w).2 = log w ++ [EvRequest r] ∧
  req_timeout r = match timeout with
                  | Some t => t
                  | None => request_timeout (config (self w))
                  end ∧
  req_url r = server (self w) +:+ path.
Proof.
  intros r. rewrite send_world. by repeat split.
Qed.

(** ** Calls against any script *)

(** The events of a loop that made [length waits] retries: every request but
    the last is followed by a sleep. *)
Definition paced (r : Request) (waits : list Q) : list event :=
  flat_map (λ q, [EvRequest r; EvSleep q]) waits ++ [EvRequest r].

(** The exception an attempt ends in, raised by [send] or while the body is
    read. *)
Definition raised (a : exn + ClientResponse) : option exn :=
  match a with
  | inl e => Some e
  | inr t =>
      match json_body t with
      | inl e => Some e
      | inr _ => None
      end
  end.

(** An attempt the handler of the loop takes for a timeout. *)
Definition timed_out (a : exn + ClientResponse) : bool :=
  match raised a with
  | Some e => except_matches retry_errors e
  | None => false
  end.

(** An attempt that is answered and rate limited. *)
Definition answer_limited (c : pyclass) (a : exn + ClientResponse) : bool :=
  match a with
  | inr t => limited c t
  | inl _ => false
  end.

Definition answer_wait (c : pyclass) (a : exn + ClientResponse) : Q :=
  match a with
  | inr t => limited_wait c t
  | inl _ => 5%Q
  end.

(** The events of turns that end in a retry of either kind, the timeout
    counter standing at [got] before the first. *)
Fixpoint mixed_turns (c : pyclass) (r : Request) (got : Z)
    (fs : list (exn + ClientResponse)) : list event :=
  match fs with
  | [] => []
  | a :: fs =>
      if answer_limited c a
      then EvRequest r :: EvSleep (answer_wait c a) :: mixed_turns c r got fs
      else EvRequest r :: EvSleep (get_timeout_retry_wait_time (got + 1))
             :: mixed_turns c r (got + 1) fs
  end.

Definition limited_count (c : pyclass) (fs : list (exn + ClientResponse))
    : nat :=
  length (List.filter (answer_limited c) fs).

Definition timeout_count (fs : list (exn + ClientResponse)) : nat :=
  length (List.filter timed_out fs).

Section Scripts.

Variables (method path : string) (data : option string).
Variables (response_data : option (list pyval)).
Variables (headers : gmap string string) (timeout : option Q).
Variables (max_429 max_timeouts : option Z).

Let req (w : world) : Request :=
  send_request (self w) method path data (Some headers) timeout.

Let turn (response_class : pyobj) :=
  api_send_turn response_class method path data response_data headers timeout
    max_429 max_timeouts.

Let loop (fuel : nat) (response_class : pyobj) :=
  api_send_loop fuel response_class method path data response_data headers
    timeout max_429 max_timeouts.

(** What the handler does with the exception an attempt ended in. *)
Lemma turn_raised response_class w a e rest got_429 got_timeouts :
  network w = a :: rest →
  raised a = Some e →
  turn response_class got_429 got_timeouts w =
  if except_matches retry_errors e
  then if exceeds max_timeouts (got_timeouts + 1)
       then (Raise e, after w rest [EvRequest (req w)])
       else (Ret (Continue got_429 (got_timeouts + 1)),
             after w rest
               [EvRequest (req w);
                EvSleep (get_timeout_retry_wait_time (got_timeouts + 1))])
  else (Raise e, after w rest [EvRequest (req w)]).
Proof.
  intros Hn Ha. unfold turn, api_send_turn, try_except, bind.
  rewrite (send_answer _ _ _ _ _ _ _ _ Hn). cbv beta iota.
  assert (Hend :
    (if except_matches retry_errors e
     then (let got_timeouts0 := got_timeouts + 1 in
           if exceeds max_timeouts got_timeouts0
           then raise e
           else λ w0,
             match sleep (get_timeout_retry_wait_time got_timeouts0) w0 with
             | (Ret _, w') => ret (Continue got_429 got_timeouts0) w'
             | (Raise e0, w') => (Raise e0, w')
             | (Pending, w') => (Pending, w')
             end) (after w rest [EvRequest (req w)])
     else (Raise e, after w rest [EvRequest (req w)])) =
    if except_matches retry_errors e
    then if exceeds max_timeouts (got_timeouts + 1)
         then (Raise e, after w rest [EvRequest (req w)])
         else (Ret (Continue got_429 (got_timeouts + 1)),
               after w rest
                 [EvRequest (req w);
                  EvSleep (get_timeout_retry_wait_time (got_timeouts + 1))])
    else (Raise e, after w rest [EvRequest (req w)])).
  { destruct (except_matches retry_errors e); [|done]. cbv zeta.
    destruct (exceeds max_timeouts (got_timeouts + 1)); [done|].
    unfold sleep, ret. by rewrite add_log_after. }
  destruct a as [e'|t]; simpl in Ha.
  - injection Ha as ->. exact Hend.
  - unfold parse_wire_response, bind, lift, raise.
    destruct (json_body t) as [e'|content]; [|done].
    injection Ha as ->. cbv beta iota. exact Hend.
Qed.

(** What a turn does with an answer whose body decodes. *)
Lemma turn_decoded c w t resp rest got_429 got_timeouts :
  network w = inr t :: rest →
  decoded c t = Some resp →
  turn (PyClass c) got_429 got_timeouts w =
  if rate_limited t resp
  then if exceeds max_429 (got_429 + 1)
       then (Ret (Break resp), after w rest [EvRequest (req w)])
       else if wait_ok resp
            then (Ret (Continue (got_429 + 1) got_timeouts),
                  after w rest [EvRequest (req w); EvSleep (spec_wait resp)])
            else (Raise OverflowError, after w rest [EvRequest (req w)])
  else (Ret (Break resp), after w rest [EvRequest (req w)]).
Proof.
  intros Hn Hd. destruct (rate_limited t resp) eqn:Hl.
  - destruct (exceeds max_429 (got_429 + 1)) eqn:Hx.
    + apply (turn_limited_stop c method path data response_data headers
               timeout max_429 max_timeouts w t rest resp got_429
               got_timeouts Hn Hd Hl Hx).
    + destruct (wait_ok resp) eqn:Hok.
      * apply (turn_limited_retry c method path data response_data headers
                 timeout max_429 max_timeouts w t rest resp got_429
                 got_timeouts Hn Hd Hl Hx Hok).
      * apply (turn_overflow c method path data response_data headers
                 timeout max_429 max_timeouts w t rest resp got_429
                 got_timeouts Hn Hd Hl Hx Hok).
  - apply (turn_success c method path data response_data headers timeout
             max_429 max_timeouts w t rest resp got_429 got_timeouts
             Hn Hd Hl).
Qed.

(** Calling an instance instead of a class fails once the body is read. *)
Lemma turn_instance i w t content rest got_429 got_timeouts :
  network w = inr t :: rest →
  json_body t = inr content →
  turn (PyInst i) got_429 got_timeouts w =
  (Raise TypeError, after w rest [EvRequest (req w)]).
Proof.
  intros Hn Hj. unfold turn, api_send_turn, try_except, bind.
  rewrite (send_answer _ _ _ _ _ _ _ _ Hn). cbv beta iota.
  unfold parse_wire_response, bind, lift, ret, raise. by rewrite Hj.
Qed.

(** Calling a class that is no response class fails once the body is
    read. *)
Lemma turn_class_error c w t content e rest got_429 got_timeouts :
  network w = inr t :: rest →
  json_body t = inr content →
  call_parse_data c content = inl e →
  turn (PyClass c) got_429 got_timeouts w =
  (Raise e, after w rest [EvRequest (req w)]).
Proof.
  intros Hn Hj He. unfold turn, api_send_turn, try_except, bind.
  rewrite (send_answer _ _ _ _ _ _ _ _ Hn). cbv beta iota.
  unfold parse_wire_response, bind, lift, ret, raise. rewrite Hj.
  cbv beta iota. rewrite He.
  assert (Hne : except_matches retry_errors e = false)
    by (destruct c; simpl in He; by simplify_eq).
  by rewrite Hne.
Qed.

(** A turn that is answered either sleeps and goes on, one of the counters
    raised by one and still within its ceiling, or ends the loop having
    logged its request alone. *)
Lemma turn_cases response_class w a rest got_429 got_timeouts :
  network w = a :: rest →
  (∃ q g1 g2,
     turn response_class got_429 got_timeouts w =
     (Ret (Continue g1 g2),
      after w rest [EvRequest (req w); EvSleep q]) ∧
     ((g1 = got_429 + 1 ∧ g2 = got_timeouts ∧ exceeds max_429 g1 = false) ∨
      (g1 = got_429 ∧ g2 = got_timeouts + 1 ∧
       exceeds max_timeouts g2 = false))) ∨
  (∃ o,
     turn response_class got_429 got_timeouts w =
     (o, after w rest [EvRequest (req w)]) ∧
     ((∃ resp, o = Ret (Break resp)) ∨ (∃ e, o = Raise e))).
Proof.
  intros Hn. destruct (raised a) as [e|] eqn:Ha.
  - rewrite (turn_raised _ _ _ _ _ _ _ Hn Ha).
    destruct (except_matches retry_errors e).
    + destruct (exceeds max_timeouts (got_timeouts + 1)) eqn:Hx.
      * right. eexists. split; [done|]. right. by eexists.
      * left. eexists _, _, _. split; [done|]. by right.
    + right. eexists. split; [done|]. right. by eexists.
  - destruct a as [e|t]; [done|]. simpl in Ha.
    destruct (json_body t) as [e|content] eqn:Hj; [done|].
    destruct response_class as [c|i].
    + destruct (call_parse_data c content) as [e|resp] eqn:Hc.
      { right. eexists.
        split; [by apply (turn_class_error c w t content e)|].
        right. by eexists. }
      assert (Hd : decoded c t = Some resp)
        by (unfold decoded; by rewrite Hj, Hc).
      rewrite (turn_decoded c w t _ rest got_429 got_timeouts Hn Hd).
      destruct (rate_limited t resp).
      * destruct (exceeds max_429 (got_429 + 1)) eqn:Hx.
        -- right. eexists. split; [done|]. left. by eexists.
        -- destruct (wait_ok resp).
           ++ left. eexists _, _, _. split; [done|]. by left.
           ++ right. eexists. split; [done|]. right. by eexists.
      * right. eexists. split; [done|]. left. by eexists.
    + right. eexists. split; [by apply (turn_instance i w t content)|].
      right. by eexists.
Qed.

Lemma exceeds_false_le m got : exceeds (Some m) got = false → got <= m.
Proof. simpl. by rewrite Z.ltb_ge. Qed.

(** The loop against any script: it consumes one answer per request, issues
    the same request every time, sleeps between any two requests, and with
    two finite ceilings retries no more often than they allow. *)
Lemma loop_shape response_class : ∀ fuel w got_429 got_timeouts,
  (length (network w) < fuel)%nat →
  ∃ waits,
    (loop fuel response_class got_429 got_timeouts w).2 =
    after w (drop (S (length waits)) (network w)) (paced (req w) waits) ∧
    (length waits ≤ length (network w))%nat ∧
    ((loop fuel response_class got_429 got_timeouts w).1 = Pending ↔
     length waits = length (network w)) ∧
    (∀ m1 m2,
       max_429 = Some m1 → max_timeouts = Some m2 →
       Z.of_nat (length waits) <=
       Z.max 0 (m1 - got_429) + Z.max 0 (m2 - got_timeouts)).
Proof.
  induction fuel as [|fuel IH]; intros w got_429 got_timeouts Hfuel; [lia|].
  destruct (network w) as [|a rest] eqn:Hn.
  - exists []. unfold loop.
    rewrite (loop_pending method path data response_data headers timeout
               max_429 max_timeouts response_class w fuel got_429
               got_timeouts Hn).
    repeat split; simpl; try done. intros. lia.
  - destruct (turn_cases response_class w a rest got_429 got_timeouts Hn)
      as [(q & g1 & g2 & Hturn & Hg) | (o & Hturn & Ho)].
    + simpl in Hfuel.
      destruct (IH (after w rest [EvRequest (req w); EvSleep q]) g1 g2
                  ltac:(simpl; lia)) as (waits & Hw & Hlen & Hpend & Hbound).
      exists (q :: waits).
      assert (Hloop :
        loop (S fuel) response_class got_429 got_timeouts w =
        loop fuel response_class g1 g2
          (after w rest [EvRequest (req w); EvSleep q])).
      { unfold loop. simpl api_send_loop. unfold bind.
        fold (turn response_class). by rewrite Hturn. }
      rewrite Hloop. simpl network in *. split; [|split; [|split]].
      * rewrite Hw, after_after. unfold req. by rewrite send_request_after.
      * simpl. lia.
      * rewrite Hpend. simpl. lia.
      * intros m1 m2 H1 H2. specialize (Hbound m1 m2 H1 H2).
        simpl length. rewrite H1, H2 in Hg.
        destruct Hg as [(-> & -> & Hx) | (-> & -> & Hx)];
          apply exceeds_false_le in Hx; lia.
    + exists [].
      assert (Hloop :
        loop (S fuel) response_class got_429 got_timeouts w =
        (match o with
         | Ret (Break resp) => Ret resp
         | Raise e => Raise e
         | _ => Pending
         end, after w rest [EvRequest (req w)])).
      { unfold loop. simpl api_send_loop. unfold bind.
        fold (turn response_class). rewrite Hturn.
        by destruct Ho as [[resp ->] | [e ->]]. }
      rewrite Hloop. split; [done|]. split; [simpl; lia|]. split.
      * simpl. split; [|lia]. by destruct Ho as [[resp ->] | [e ->]].
      * intros. simpl. lia.
Qed.

Lemma limited_not_timed_out c a :
  answer_limited c a = true → timed_out a = false.
Proof.
  destruct a as [e|t]; [done|]. unfold answer_limited, limited, decoded.
  unfold timed_out, raised. by destruct (json_body t).
Qed.

(** Rate limits and timeouts in any order: each failure raises its own
    counter and is slept over while both counters stay within their
    ceilings. *)
Lemma loop_mixed_run c fs : ∀ w rest fuel got_429 got_timeouts,
  network w = fs ++ rest →
  Forall (λ a, answer_limited c a = true ∨ timed_out a = true) fs →
  exceeds max_429 (got_429 + Z.of_nat (limited_count c fs)) = false →
  exceeds max_timeouts (got_timeouts + Z.of_nat (timeout_count fs)) = false →
  loop (length fs + S fuel) (PyClass c) got_429 got_timeouts w =
  loop (S fuel) (PyClass c) (got_429 + Z.of_nat (limited_count c fs))
    (got_timeouts + Z.of_nat (timeout_count fs))
    (after w rest (mixed_turns c (req w) got_timeouts fs)).
Proof.
  induction fs as [|a fs IH];
    intros w rest fuel got_429 got_timeouts Hn Hall Hx1 Hx2.
  - simpl in *. rewrite !Z.add_0_r, <- Hn.
    apply (loop_ensure method path data response_data headers timeout
             max_429 max_timeouts).
  - apply Forall_cons in Hall as [Ha Hall].
    unfold limited_count, timeout_count in *. simpl in Hx1, Hx2, Hn |- *.
    destruct (answer_limited c a) eqn:Hlim.
    + rewrite (limited_not_timed_out c a Hlim) in Hx2 |- *.
      destruct a as [e|t]; [done|]. simpl in Hlim.
      destruct (limited_decoded c t Hlim) as (resp & Hd & Hl & Hok & Hw).
      simpl length in Hx1 |- *.
      assert (Hx : exceeds max_429 (got_429 + 1) = false)
        by (apply (exceeds_mono _ _ _ Hx1); lia).
      unfold loop. simpl api_send_loop. unfold bind.
      fold (turn (PyClass c)).
      rewrite (turn_decoded c w t resp _ got_429 got_timeouts Hn Hd), Hl, Hx,
        Hok.
      fold (loop (length fs + S fuel) (PyClass c)).
      rewrite (IH _ rest); [| done | done | |].
      * rewrite after_after. unfold req. rewrite send_request_after.
        simpl answer_wait. rewrite Hw.
        replace (got_429 + 1 + Z.of_nat (length (List.filter (answer_limited c) fs)))
          with (got_429 + Z.of_nat (S (length (List.filter (answer_limited c) fs))))
          by lia.
        done.
      * replace (got_429 + 1 + Z.of_nat (length (List.filter (answer_limited c) fs)))
          with (got_429 + Z.of_nat (S (length (List.filter (answer_limited c) fs))))
          by lia.
        done.
      * done.
    + destruct Ha as [Ha|Ha]; [done|]. rewrite Ha in Hx2 |- *.
      simpl length in Hx2 |- *.
      assert (Hx : exceeds max_timeouts (got_timeouts + 1) = false)
        by (apply (exceeds_mono _ _ _ Hx2); lia).
      unfold timed_out in Ha. destruct (raised a) as [e|] eqn:Hr; [|done].
      unfold loop. simpl api_send_loop. unfold bind.
      fold (turn (PyClass c)).
      rewrite (turn_raised (PyClass c) w a e _ got_429 got_timeouts Hn Hr),
        Ha, Hx.
      fold (loop (length fs + S fuel) (PyClass c)).
      rewrite (IH _ rest); [| done | done | |].
      * rewrite after_after. unfold req. rewrite send_request_after.
        replace (got_timeouts + 1 + Z.of_nat (length (List.filter timed_out fs)))
          with (got_timeouts + Z.of_nat (S (length (List.filter timed_out fs))))
          by lia.
        done.
      * done.
      * replace (got_timeouts + 1 + Z.of_nat (length (List.filter timed_out fs)))
          with (got_timeouts + Z.of_nat (S (length (List.filter timed_out fs))))
          by lia.
        done.
Qed.

End Scripts.

(** Whatever [response_class().parse_data] raises, the handler of the loop
    does not catch it. *)
Lemma call_parse_data_error c content e :
  call_parse_data c content = inl e → except_matches retry_errors e = false.
Proof. destruct c; simpl; intros H; by simplify_eq. Qed.

(** C5: an absent ceiling closes the corresponding exit. Without a
    rate-limit ceiling every rate-limited answer, however many there are, is
    followed by a sleep and a further request, so the call is still waiting
    when the answers run out; without a timeout ceiling the same holds of
    connection and timeout errors. And in any single turn, whatever the
    counters stand at: without a rate-limit ceiling the loop is left with a
    response only when that response is not rate limited, and without a
    timeout ceiling no error the handler catches is raised out of the
    turn. *)
Theorem api_send_unlimited_never_gives_up w method path data response_data
    content_type timeout content_length c response_class :
  let r := λ rc, api_request (self w) rc method path data content_type
                   timeout content_length in
  (∀ ts,
     max_limit_exceeded (config (self w)) = None →
     network w = map inr ts →
     Forall (λ t, limited c t = true) ts →
     api_send (PyClass c) method path data response_data content_type timeout
       content_length w =
     (Pending,
      after w []
        (limited_turns c (r (PyClass c)) ts ++ [EvRequest (r (PyClass c))]))) ∧
  (∀ es,
     max_timeouts (config (self w)) = None →
     network w = map inl es →
     Forall (λ e, except_matches retry_errors e = true) es →
     api_send response_class method path data response_data content_type
       timeout content_length w =
     (Pending,
      after w []
        (timeout_turns (r response_class) 0 (length es) ++
         [EvRequest (r response_class)]))) ∧
  (∀ w0 headers max_timeouts got_429 got_timeouts resp w',
     api_send_turn response_class method path data response_data headers
       timeout None max_timeouts got_429 got_timeouts w0 =
     (Ret (Break resp), w') →
     ∃ t rest, network w0 = inr t :: rest ∧ rate_limited t resp = false) ∧
  (∀ w0 headers max_429 got_429 got_timeouts e w',
     api_send_turn response_class method path data response_data headers
       timeout max_429 None got_429 got_timeouts w0 = (Raise e, w') →
     except_matches retry_errors e = false).
Proof.
  intros r. split; [|split; [|split]].
  - intros ts Hmax Hn Hall.
    assert (Hin : within (max_limit_exceeded (config (self w))) (length ts))
      by (by rewrite Hmax).
    rewrite <- (app_nil_r (map inr ts)) in Hn.
    rewrite (api_send_limited_run w method path data response_data
               content_type timeout content_length c ts _ Hn Hall Hin).
    fold (r (PyClass c)).
    pose proof (loop_pending method path data response_data
      (api_send_headers (self w) (PyClass c) content_type content_length)
      timeout (max_limit_exceeded (config (self w)))
      (max_timeouts (config (self w))) (PyClass c)
      (after w [] (limited_turns c (r (PyClass c)) ts)) 0
      (Z.of_nat (length ts)) 0 eq_refl) as Hlast.
    cbv zeta in Hlast. simpl length. rewrite Hlast. unfold finish.
    by rewrite after_after, send_request_after.
  - intros es Hmax Hn Hall.
    assert (Hin : within (max_timeouts (config (self w))) (length es))
      by (by rewrite Hmax).
    rewrite <- (app_nil_r (map inl es)) in Hn.
    rewrite (api_send_timeout_run w method path data response_data
               content_type timeout content_length response_class es _
               Hn Hall Hin).
    fold (r response_class).
    pose proof (loop_pending method path data response_data
      (api_send_headers (self w) response_class content_type content_length)
      timeout (max_limit_exceeded (config (self w)))
      (max_timeouts (config (self w))) response_class
      (after w [] (timeout_turns (r response_class) 0 (length es))) 0
      0 (Z.of_nat (length es)) eq_refl) as Hlast.
    cbv zeta in Hlast. simpl length. rewrite Hlast. unfold finish.
    by rewrite after_after, send_request_after.
  - intros w0 headers max_to got_429 got_timeouts resp w' H.
    destruct (network w0) as [|a rest] eqn:Hn.
    { by rewrite (turn_pending method path data response_data headers timeout
                    None max_to response_class w0 got_429 got_timeouts Hn)
        in H. }
    destruct (raised a) as [e|] eqn:Ha.
    { rewrite (turn_raised method path data response_data headers timeout
                 None max_to response_class w0 a e rest got_429 got_timeouts
                 Hn Ha) in H.
      destruct (except_matches retry_errors e); [|done].
      by destruct (exceeds max_to (got_timeouts + 1)). }
    destruct a as [e|t]; [done|]. simpl in Ha.
    destruct (json_body t) as [e|content] eqn:Hj; [done|].
    destruct response_class as [c0|i].
    + destruct (call_parse_data c0 content) as [e|resp0] eqn:Hc.
      { by rewrite (turn_class_error method path data response_data headers
                      timeout None max_to c0 w0 t content e rest got_429
                      got_timeouts Hn Hj Hc) in H. }
      assert (Hd : decoded c0 t = Some resp0)
        by (unfold decoded; by rewrite Hj, Hc).
      rewrite (turn_decoded method path data response_data headers timeout
                 None max_to c0 w0 t resp0 rest got_429 got_timeouts Hn Hd)
        in H.
      destruct (rate_limited t resp0) eqn:Hl.
      * simpl in H. by destruct (wait_ok resp0).
      * exists t, rest. split; [done|]. by simplify_eq.
    + by rewrite (turn_instance method path data response_data headers timeout
                    None max_to i w0 t content rest got_429 got_timeouts
                    Hn Hj) in H.
  - intros w0 headers max_429 got_429 got_timeouts e w' H.
    destruct (network w0) as [|a rest] eqn:Hn.
    { by rewrite (turn_pending method path data response_data headers timeout
                    max_429 None response_class w0 got_429 got_timeouts Hn)
        in H. }
    destruct (raised a) as [e0|] eqn:Ha.
    { rewrite (turn_raised method path data response_data headers timeout
                 max_429 None response_class w0 a e0 rest got_429
                 got_timeouts Hn Ha) in H.
      destruct (except_matches retry_errors e0) eqn:He; [done|].
      by simplify_eq. }
    destruct a as [e0|t]; [done|]. simpl in Ha.
    destruct (json_body t) as [e0|content] eqn:Hj; [done|].
    destruct response_class as [c0|i].
    + destruct (call_parse_data c0 content) as [e0|resp0] eqn:Hc.
      { rewrite (turn_class_error method path data response_data headers
                   timeout max_429 None c0 w0 t content e0 rest got_429
                   got_timeouts Hn Hj Hc) in H.
        simplify_eq. by apply (call_parse_data_error c0 content). }
      assert (Hd : decoded c0 t = Some resp0)
        by (unfold decoded; by rewrite Hj, Hc).
      rewrite (turn_decoded method path data response_data headers timeout
                 max_429 None c0 w0 t resp0 rest got_429 got_timeouts Hn Hd)
        in H.
      destruct (rate_limited t resp0); [|done].
      destruct (exceeds max_429 (got_429 + 1)); [done|].
      destruct (wait_ok resp0); [done|]. by simplify_eq.
    + rewrite (turn_instance method path data response_data headers timeout
                 max_429 None i w0 t content rest got_429 got_timeouts
                 Hn Hj) in H.
      by simplify_eq.
Qed.

Lemma count_paced r waits :
  requests (paced r waits) = S (length waits) ∧
  sleeps (paced r waits) = length waits.
Proof.
  unfold paced. rewrite requests_app, sleeps_app.
  induction waits as [|q waits [IHr IHs]]; [done|].
  unfold requests, sleeps in *. simpl in *. lia.
Qed.

(** The whole call against any script, with the bound two finite ceilings
    put on its retries. *)
Lemma api_send_shape_bounded w response_class method path data response_data
    content_type timeout content_length :
  ∃ waits,
    let r := api_request (self w) response_class method path data
               content_type timeout content_length in
    let x := api_send response_class method path data response_data
               content_type timeout content_length w in
    (∀ m1 m2,
       max_limit_exceeded (config (self w)) = Some m1 →
       max_timeouts (config (self w)) = Some m2 →
       Z.of_nat (length waits) <= Z.max 0 m1 + Z.max 0 m2) ∧
    match x.1 with
    | Ret resp =>
        x.2 = received (PyInst resp)
                (after w (drop (S (length waits)) (network w))
                   (paced r waits)) ∧
        (length waits < length (network w))%nat ∧
        isinstance (PyInst resp) BaseResponse = true
    | Raise e =>
        x.2 = after w (drop (S (length waits)) (network w)) (paced r waits) ∧
        (length waits < length (network w))%nat
    | Pending =>
        x.2 = after w [] (paced r waits) ∧
        length waits = length (network w)
    end.
Proof.
  assert (Hfuel : (length (network w) < S (length (network w)))%nat) by lia.
  pose proof (loop_shape method path data response_data
    (api_send_headers (self w) response_class content_type content_length)
    timeout (max_limit_exceeded (config (self w)))
    (max_timeouts (config (self w))) response_class
    (S (length (network w))) w 0 0 Hfuel) as Hshape.
  cbv zeta in Hshape. destruct Hshape as (waits & Hw & Hlen & Hpend & Hbound).
  exists waits. cbv zeta. rewrite api_send_unfold. split.
  - intros m1 m2 H1 H2. specialize (Hbound m1 m2 H1 H2).
    by rewrite !Z.sub_0_r in Hbound.
  - destruct (api_send_loop _ _ _ _ _ _ _ _ _ _ _ _ w) as [[resp|e|] w'];
      simpl in Hw, Hpend |- *.
    + assert (length waits ≠ length (network w)) by (intros H; by apply Hpend in H).
      destruct (isinstance (PyInst resp) BaseResponse) eqn:Hb; simpl.
      * rewrite Hw. split; [done|]. split; [lia|done].
      * split; [done|lia].
    + assert (length waits ≠ length (network w)) by (intros H; by apply Hpend in H).
      split; [done|lia].
    + assert (Hl : length waits = length (network w)) by by apply Hpend.
      split; [|done]. rewrite Hw. by rewrite drop_ge by lia.
Qed.

(** X1: whatever the network answers and however the call ends, [api_send]
    reads the answers in order, one per request; every request it issues is
    the same (same session, URL, headers and timeout); between any two
    requests it sleeps once; while the loop runs the client is left as it
    was apart from the session, of which at most one is created; and the
    base client receives a response exactly when one is returned, once and
    as the last step, the client then being what the base client makes of
    it. *)
Theorem api_send_any_script w response_class method path data response_data
    content_type timeout content_length :
  ∃ waits,
    let r := api_request (self w) response_class method path data
               content_type timeout content_length in
    let x := api_send response_class method path data response_data
               content_type timeout content_length w in
    match x.1 with
    | Ret resp =>
        x.2 = received (PyInst resp)
                (after w (drop (S (length waits)) (network w))
                   (paced r waits)) ∧
        (length waits < length (network w))%nat ∧
        isinstance (PyInst resp) BaseResponse = true
    | Raise e =>
        x.2 = after w (drop (S (length waits)) (network w)) (paced r waits) ∧
        (length waits < length (network w))%nat
    | Pending =>
        x.2 = after w [] (paced r waits) ∧
        length waits = length (network w)
    end.
Proof.
  destruct (api_send_shape_bounded w response_class method path data
              response_data content_type timeout content_length)
    as (waits & _ & H).
  by exists waits.
Qed.

(** X2: with two finite ceilings the call is bounded whatever the network
    answers: it issues at most [max 0 m1 + max 0 m2 + 1] requests and sleeps
    at most [max 0 m1 + max 0 m2] times, and given more answers than that
    many retries it ends, returning or raising. *)
Theorem api_send_retries_bounded w response_class method path data
    response_data content_type timeout content_length m1 m2 :
  max_limit_exceeded (config (self w)) = Some m1 →
  max_timeouts (config (self w)) = Some m2 →
  let x := api_send response_class method path data response_data
             content_type timeout content_length w in
  ∃ tr,
    log x.2 = log w ++ tr ∧
    Z.of_nat (requests tr) <= Z.max 0 m1 + Z.max 0 m2 + 1 ∧
    Z.of_nat (sleeps tr) <= Z.max 0 m1 + Z.max 0 m2 ∧
    (Z.max 0 m1 + Z.max 0 m2 < Z.of_nat (length (network w)) →
     x.1 ≠ Pending).
Proof.
  intros H1 H2 x.
  destruct (api_send_shape_bounded w response_class method path data
              response_data content_type timeout content_length)
    as (waits & Hbound & H).
  cbv zeta in H. fold x in H. specialize (Hbound m1 m2 H1 H2).
  set (r := api_request (self w) response_class method path data
              content_type timeout content_length) in H.
  destruct (count_paced r waits) as [Hr Hs].
  destruct x.1 as [resp|e|].
  - destruct H as (-> & Hlt & _).
    exists (paced r waits ++ [EvReceive (PyInst resp)]).
    rewrite requests_app, sleeps_app, Hr, Hs.
    unfold requests, sleeps. simpl. repeat split; try lia.
    + by rewrite app_assoc.
    + done.
  - destruct H as (-> & Hlt). exists (paced r waits).
    rewrite Hr, Hs. repeat split; try lia. done.
  - destruct H as (-> & Hl). exists (paced r waits).
    rewrite Hr, Hs. repeat split; try lia.
Qed.

(** X3: rate limits and timeouts in any order, a timeout being a caught
    error of [send] or of reading the body: as long as the rate-limited
    answers are within the rate-limit ceiling and the timeouts within the
    timeout ceiling, each counted on its own, every failure is slept over
    and the success that follows is returned. *)
Theorem api_send_mixed_failures_then_success w c method path data
    response_data content_type timeout content_length fs ok resp rest :
  network w = fs ++ inr ok :: rest →
  Forall (λ a, answer_limited c a = true ∨ timed_out a = true) fs →
  within (max_limit_exceeded (config (self w))) (limited_count c fs) →
  within (max_timeouts (config (self w))) (timeout_count fs) →
  succeeds c ok resp →
  let r := api_request (self w) (PyClass c) method path data content_type
             timeout content_length in
  api_send (PyClass c) method path data response_data content_type timeout
    content_length w =
  (Ret resp,
   received (PyInst resp)
     (after w rest (mixed_turns c r 0 fs ++ [EvRequest r]))).
Proof.
  intros Hn Hall Hin1 Hin2 (Hd & Hl & Hb) r. subst r. unfold api_request.
  set (r := send_request _ _ _ _ _ _). rewrite api_send_unfold.
  replace (S (length (network w)))
    with (length fs + S (S (length rest)))%nat
    by (rewrite Hn, length_app; simpl; lia).
  pose proof (loop_mixed_run method path data response_data
    (api_send_headers (self w) (PyClass c) content_type content_length)
    timeout (max_limit_exceeded (config (self w)))
    (max_timeouts (config (self w))) c fs w (inr ok :: rest)
    (S (length rest)) 0 0 Hn Hall (within_exceeds _ _ Hin1)
    (within_exceeds _ _ Hin2)) as Hrun.
  cbv zeta in Hrun. rewrite Hrun. clear Hrun. fold r.
  pose proof (loop_success c method path data response_data
    (api_send_headers (self w) (PyClass c) content_type content_length)
    timeout (max_limit_exceeded (config (self w)))
    (max_timeouts (config (self w)))
    (after w (inr ok :: rest) (mixed_turns c r 0 fs)) ok rest resp
    (S (length rest)) (0 + Z.of_nat (limited_count c fs))
    (0 + Z.of_nat (timeout_count fs)) eq_refl Hd Hl) as Hlast.
  cbv zeta in Hlast. rewrite Hlast. unfold finish.
  by rewrite Hb, after_after, send_request_after.
Qed.

(** The loop on an attempt that ends in an exception the handler does not
    catch. *)
Lemma loop_uncaught response_class method path data response_data headers
    timeout max_429 max_to w a e rest fuel got_429 got_timeouts :
  network w = a :: rest →
  raised a = Some e →
  except_matches retry_errors e = false →
  api_send_loop (S fuel) response_class method path data response_data
    headers timeout max_429 max_to got_429 got_timeouts w =
  (Raise e,
   after w rest
     [EvRequest (send_request (self w) method path data (Some headers)
                   timeout)]).
Proof.
  intros Hn Ha He. simpl api_send_loop. unfold bind.
  pose proof (turn_raised method path data response_data headers timeout
    max_429 max_to response_class w a e rest got_429 got_timeouts Hn Ha)
    as Hturn.
  cbv zeta in Hturn. by rewrite Hturn, He.
Qed.

(** X4: an exception of [send] or of reading the body that is no connection
    or timeout error (a payload error, a response error, a decode error)
    leaves the call at once, in any turn and whatever the counters and
    ceilings are: no sleep, no further request. *)
Theorem unexpected_error_surfaces w response_class method path data
    response_data content_type timeout content_length a e rest :
  network w = a :: rest →
  raised a = Some e →
  except_matches retry_errors e = false →
  (∀ fuel headers max_429 max_to got_429 got_timeouts,
     api_send_loop (S fuel) response_class method path data response_data
       headers timeout max_429 max_to got_429 got_timeouts w =
     (Raise e,
      after w rest
        [EvRequest
           (send_request (self w) method path data (Some headers) timeout)])) ∧
  api_send response_class method path data response_data content_type timeout
    content_length w =
  (Raise e,
   after w rest
     [EvRequest
        (api_request (self w) response_class method path data content_type
           timeout content_length)]).
Proof.
  intros Hn Ha He. split.
  - intros. by apply (loop_uncaught _ _ _ _ _ _ _ _ _ w a e rest).
  - rewrite api_send_unfold.
    by rewrite (loop_uncaught _ _ _ _ _ _ _ _ _ w a e rest _ _ _ Hn Ha He).
Qed.

(** X6: a ceiling of zero or below allows no retry: the first rate-limited
    answer is returned without a sleep, and the first connection or timeout
    error is re-raised without one. *)
Theorem nonpositive_ceiling_never_retries w c response_class method path data
    response_data content_type timeout content_length m :
  m <= 0 →
  (∀ t resp rest,
     max_limit_exceeded (config (self w)) = Some m →
     network w = inr t :: rest →
     decoded c t = Some resp →
     rate_limited t resp = true →
     isinstance (PyInst resp) BaseResponse = true →
     let r := api_request (self w) (PyClass c) method path data content_type
                timeout content_length in
     api_send (PyClass c) method path data response_data content_type timeout
       content_length w =
     (Ret resp, received (PyInst resp) (after w rest [EvRequest r]))) ∧
  (∀ a e rest,
     max_timeouts (config (self w)) = Some m →
     network w = a :: rest →
     raised a = Some e →
     except_matches retry_errors e = true →
     api_send response_class method path data response_data content_type
       timeout content_length w =
     (Raise e,
      after w rest
        [EvRequest
           (api_request (self w) response_class method path data content_type
              timeout content_length)])).
Proof.
  intros Hm. split.
  - intros t resp rest Hmax Hn Hd Hl Hb r. rewrite api_send_unfold.
    assert (Hx : exceeds (max_limit_exceeded (config (self w))) (0 + 1) = true)
      by (rewrite Hmax; simpl; apply Z.ltb_lt; lia).
    pose proof (loop_limited_stop c method path data response_data
      (api_send_headers (self w) (PyClass c) content_type content_length)
      timeout (max_limit_exceeded (config (self w)))
      (max_timeouts (config (self w))) w t rest resp (length (network w)) 0 0
      Hn Hd Hl Hx) as Hloop.
    cbv zeta in Hloop. rewrite Hloop. unfold finish. by rewrite Hb.
  - intros a e rest Hmax Hn Ha He. rewrite api_send_unfold.
    simpl api_send_loop. unfold bind.
    pose proof (turn_raised method path data response_data
      (api_send_headers (self w) response_class content_type content_length)
      timeout (max_limit_exceeded (config (self w)))
      (max_timeouts (config (self w))) response_class w a e rest 0 0 Hn Ha)
      as Hturn.
    assert (Hx : exceeds (max_timeouts (config (self w))) (0 + 1) = true)
      by (rewrite Hmax; simpl; apply Z.ltb_lt; lia).
    cbv zeta in Hturn. by rewrite Hturn, He, Hx.
Qed.

(** ** Calls in sequence *)

(** One call over rate-limited answers within the ceiling and a success. *)
Lemma api_send_limited_success w c method path data response_data
    content_type timeout content_length ts ok resp rest :
  network w = map inr ts ++ inr ok :: rest →
  Forall (λ t, limited c t = true) ts →
  within (max_limit_exceeded (config (self w))) (length ts) →
  succeeds c ok resp →
  api_send (PyClass c) method path data response_data content_type timeout
    content_length w =
  (Ret resp,
   received (PyInst resp)
     (after w rest
        (limited_turns c
           (api_request (self w) (PyClass c) method path data content_type
              timeout content_length) ts ++
         [EvRequest
            (api_request (self w) (PyClass c) method path data content_type
               timeout content_length)]))).
Proof.
  intros Hn Hall Hin (Hd & Hl & Hb).
  rewrite (api_send_limited_run w method path data response_data content_type
             timeout content_length c ts _ Hn Hall Hin).
  set (r := api_request _ _ _ _ _ _ _ _).
  pose proof (loop_success c method path data response_data
    (api_send_headers (self w) (PyClass c) content_type content_length)
    timeout (max_limit_exceeded (config (self w)))
    (max_timeouts (config (self w)))
    (after w (inr ok :: rest) (limited_turns c r ts)) ok rest resp
    (S (length rest)) (Z.of_nat (length ts)) 0 eq_refl Hd Hl) as Hlast.
  cbv zeta in Hlast. simpl length. rewrite Hlast. unfold finish.
  by rewrite Hb, after_after, send_request_after.
Qed.

(** X7: the retry counters belong to one call. Two calls in a row, each
    meeting no more rate-limited answers than the ceiling in force when it
    starts, both succeed, even when together they meet more than a ceiling;
    the second call reads on where the first stopped and starts from the
    client the base client left after the first response. If that still
    holds the session, the second call sends on it and no further session is
    created. *)
Theorem consecutive_calls_reset_counters w c method1 path1 data1 method2
    path2 data2 response_data content_type timeout content_length ts1 ok1
    resp1 ts2 ok2 resp2 rest :
  network w = map inr ts1 ++ inr ok1 :: map inr ts2 ++ inr ok2 :: rest →
  Forall (λ t, limited c t = true) ts1 →
  Forall (λ t, limited c t = true) ts2 →
  within (max_limit_exceeded (config (self w))) (length ts1) →
  succeeds c ok1 resp1 →
  succeeds c ok2 resp2 →
  let r1 := api_request (self w) (PyClass c) method1 path1 data1 content_type
              timeout content_length in
  let w1 := received (PyInst resp1)
              (after w (map inr ts2 ++ inr ok2 :: rest)
                 (limited_turns c r1 ts1 ++ [EvRequest r1])) in
  within (max_limit_exceeded (config (self w1))) (length ts2) →
  let r2 := api_request (self w1) (PyClass c) method2 path2 data2
              content_type timeout content_length in
  let x := (api_send (PyClass c) method1 path1 data1 response_data
              content_type timeout content_length ;;;
            api_send (PyClass c) method2 path2 data2 response_data
              content_type timeout content_length) w in
  x = (Ret resp2,
       received (PyInst resp2)
         (after w1 rest (limited_turns c r2 ts2 ++ [EvRequest r2]))) ∧
  (client_session (self w1) = Some (current_session (self w)) →
   req_session r2 = req_session r1 ∧
   sessions_created x.2 = sessions_created (ensure_session w)).
Proof.
  intros Hn H1 H2 Hin1 Hok1 Hok2 r1 w1 Hin2 r2 x.
  assert (Hx : x = (Ret resp2,
       received (PyInst resp2)
         (after w1 rest (limited_turns c r2 ts2 ++ [EvRequest r2])))).
  { subst x. unfold bind.
    rewrite (api_send_limited_success w c method1 path1 data1 response_data
               content_type timeout content_length ts1 ok1 resp1 _
               Hn H1 Hin1 Hok1).
    fold r1. fold w1.
    assert (Hn1 : network w1 = map inr ts2 ++ inr ok2 :: rest) by done.
    by rewrite (api_send_limited_success w1 c method2 path2 data2
                  response_data content_type timeout content_length ts2 ok2
                  resp2 rest Hn1 H2 Hin2 Hok2). }
  split; [exact Hx|]. intros Hs. rewrite Hx. split.
  - change (req_session r2) with (current_session (self w1)).
    change (req_session r1) with (current_session (self w)).
    unfold current_session at 1. by rewrite Hs.
  - change (sessions_created (ensure_session w1) =
            sessions_created (ensure_session w)).
    unfold ensure_session at 1. by rewrite Hs.
Qed.

(** ** The headers of a call *)

(** X8: the headers of a call, read back key by key: the content type is
    the one given unless that is absent or empty, when it is JSON; [Accept]
    and [User-Agent] are fixed; [Content-Length] is present exactly when a
    length is given, a length of 0 included; no other header is set
    besides [Authorization]. *)
Theorem api_send_headers_lookup client response_class content_type
    content_length :
  let h := api_send_headers client response_class content_type
             content_length in
  h !! "Content-Type" =
    Some (match content_type with
          | Some (String a s) => String a s
          | _ => "application/json"
          end) ∧
  h !! "Accept" = Some "*/*" ∧
  h !! "User-Agent" = Some ("wire-nio/" +:+ version) ∧
  h !! "Content-Length" = str_int <$> content_length ∧
  (∀ k, k ∉ ["Content-Type"; "Accept"; "User-Agent"; "Authorization";
             "Content-Length"] → h !! k = None).
Proof.
  intros h. subst h. unfold api_send_headers, USER_AGENT.
  destruct (negb (isinstance response_class LoginResponse));
    destruct content_length; simpl; repeat split;
    try (by simplify_map_eq);
    intros k Hk; rewrite !not_elem_of_cons in Hk;
    destruct Hk as (? & ? & ? & ? & ? & _); by simplify_map_eq.
Qed.

End AsyncClient.

(** ** The statements at work on the sample deployment *)

Lemma api_send_rate_limited_then_success_witness :
  let w := new_world sample_config
             [inr too_many_requests; inr ok_response] in
  let r := api_request sample_version (self w) (PyClass UsersResponse) "GET"
             "/users" None None None None in
  let resp := Instance UsersResponse ∅ in
  let tr := [EvRequest r; EvSleep (3 # 2); EvRequest r] in
  api_send sample_version sample_parse_data sample_wait
    sample_receive_response (PyClass UsersResponse) "GET" "/users" None None
    None None None w =
  (Ret resp, received sample_receive_response (PyInst resp) (after w [] tr)) ∧
  requests tr = 2%nat ∧ sleeps tr = 1%nat.
Proof.
  apply (api_send_rate_limited_then_success sample_version sample_parse_data
           sample_wait sample_receive_response
           (new_world sample_config [inr too_many_requests; inr ok_response])
           "GET" "/users" None None None None None UsersResponse
           [too_many_requests] ok_response (Instance UsersResponse ∅) []).
  - reflexivity.
  - repeat constructor.
  - simpl. lia.
  - repeat split.
Defined.

Lemma api_send_rate_limit_exhausted_witness :
  let w := new_world sample_config
             [inr too_many_requests; inr too_many_requests;
              inr too_many_requests; inr ok_response] in
  let r := api_request sample_version (self w) (PyClass UsersResponse) "GET"
             "/users" None None None None in
  let resp := sample_parse_data UsersResponse rate_limited_body in
  let tr := [EvRequest r; EvSleep (3 # 2); EvRequest r; EvSleep (3 # 2);
             EvRequest r] in
  api_send sample_version sample_parse_data sample_wait
    sample_receive_response (PyClass UsersResponse) "GET" "/users" None None
    None None None w =
  (Ret resp,
   received sample_receive_response (PyInst resp)
     (after w [inr ok_response] tr)) ∧
  requests tr = 3%nat ∧ sleeps tr = 2%nat.
Proof.
  apply (api_send_rate_limit_exhausted sample_version sample_parse_data
           sample_wait sample_receive_response
           (new_world sample_config
              [inr too_many_requests; inr too_many_requests;
               inr too_many_requests; inr ok_response])
           "GET" "/users" None None None None None UsersResponse
           [too_many_requests; too_many_requests] too_many_requests
           (sample_parse_data UsersResponse rate_limited_body)
           [inr ok_response]).
  - reflexivity.
  - reflexivity.
  - repeat constructor.
  - reflexivity.
  - reflexivity.
  - reflexivity.
Defined.

Lemma api_send_timeouts_witness :
  let w1 := new_world sample_config
              [inl TimeoutError; inl ServerDisconnectedError;
               inr ok_response] in
  let w2 := new_world sample_config
              [inl TimeoutError; inl ServerDisconnectedError;
               inl ClientConnectionError; inr ok_response] in
  let r := api_request sample_version (new_client sample_config)
             (PyClass UsersResponse) "GET" "/users" None None None None in
  api_send sample_version sample_parse_data sample_wait sample_receive_response
    (PyClass UsersResponse) "GET" "/users" None None None None None w1 =
  (Ret (Instance UsersResponse ∅),
   received sample_receive_response (PyInst (Instance UsersResponse ∅))
     (after w1 []
        [EvRequest r; EvSleep (sample_wait 1); EvRequest r;
         EvSleep (sample_wait 2); EvRequest r])) ∧
  api_send sample_version sample_parse_data sample_wait sample_receive_response
    (PyClass UsersResponse) "GET" "/users" None None None None None w2 =
  (Raise ClientConnectionError,
   after w2 [inr ok_response]
     [EvRequest r; EvSleep (sample_wait 1); EvRequest r;
      EvSleep (sample_wait 2); EvRequest r]).
Proof.
  split.
  - apply (proj1 (api_send_timeouts sample_version sample_parse_data
             sample_wait sample_receive_response
             (new_world sample_config
                [inl TimeoutError; inl ServerDisconnectedError;
                 inr ok_response])
             "GET" "/users" None None None None None UsersResponse
             (PyClass UsersResponse) [TimeoutError; ServerDisconnectedError]
             [] ltac:(repeat constructor)) ok_response
           (Instance UsersResponse ∅)).
    + reflexivity.
    + simpl. lia.
    + repeat split.
  - apply (proj2 (api_send_timeouts sample_version sample_parse_data
             sample_wait sample_receive_response
             (new_world sample_config
                [inl TimeoutError; inl ServerDisconnectedError;
                 inl ClientConnectionError; inr ok_response])
             "GET" "/users" None None None None None UsersResponse
             (PyClass UsersResponse) [TimeoutError; ServerDisconnectedError]
             [inr ok_response] ltac:(repeat constructor))
           ClientConnectionError).
    + reflexivity.
    + reflexivity.
    + reflexivity.
Defined.

Lemma api_send_unlimited_never_gives_up_witness :
  let w1 := new_world unlimited_config
              [inr too_many_requests; inr too_many_requests;
               inr too_many_requests] in
  let w2 := new_world unlimited_config
              [inl TimeoutError; inl TimeoutError; inl TimeoutError] in
  let r := api_request sample_version (new_client unlimited_config)
             (PyClass UsersResponse) "GET" "/users" None None None None in
  api_send sample_version sample_parse_data sample_wait sample_receive_response
    (PyClass UsersResponse) "GET" "/users" None None None None None w1 =
  (Pending,
   after w1 []
     [EvRequest r; EvSleep (3 # 2); EvRequest r; EvSleep (3 # 2);
      EvRequest r; EvSleep (3 # 2); EvRequest r]) ∧
  api_send sample_version sample_parse_data sample_wait sample_receive_response
    (PyClass UsersResponse) "GET" "/users" None None None None None w2 =
  (Pending,
   after w2 []
     [EvRequest r; EvSleep (sample_wait 1); EvRequest r;
      EvSleep (sample_wait 2); EvRequest r; EvSleep (sample_wait 3);
      EvRequest r]) ∧
  (∃ t rest,
     network (new_world unlimited_config [inr ok_response]) = inr t :: rest ∧
     rate_limited t (Instance UsersResponse ∅) = false) ∧
  except_matches retry_errors OverflowError = false.
Proof.
  split; [|split; [|split]].
  - apply (proj1 (api_send_unlimited_never_gives_up sample_version
             sample_parse_data sample_wait sample_receive_response
             (new_world unlimited_config
                [inr too_many_requests; inr too_many_requests;
                 inr too_many_requests])
             "GET" "/users" None None None None None UsersResponse
             (PyClass UsersResponse))
           [too_many_requests; too_many_requests; too_many_requests]).
    + reflexivity.
    + reflexivity.
    + repeat constructor.
  - apply (proj1 (proj2 (api_send_unlimited_never_gives_up sample_version
             sample_parse_data sample_wait sample_receive_response
             (new_world unlimited_config
                [inl TimeoutError; inl TimeoutError; inl TimeoutError])
             "GET" "/users" None None None None None UsersResponse
             (PyClass UsersResponse)))
           [TimeoutError; TimeoutError; TimeoutError]).
    + reflexivity.
    + reflexivity.
    + repeat constructor.
  - apply (proj1 (proj2 (proj2 (api_send_unlimited_never_gives_up
             sample_version sample_parse_data sample_wait
             sample_receive_response (new_world unlimited_config [])
             "GET" "/users" None None None None None UsersResponse
             (PyClass UsersResponse))))
           (new_world unlimited_config [inr ok_response]) ∅ None 7 0
           (Instance UsersResponse ∅)
           (after (new_world unlimited_config [inr ok_response]) []
              [EvRequest
                 (send_request (new_client unlimited_config) "GET" "/users"
                    None (Some ∅) None)])).
    vm_compute. reflexivity.
  - apply (proj2 (proj2 (proj2 (api_send_unlimited_never_gives_up
             sample_version sample_parse_data sample_wait
             sample_receive_response (new_world unlimited_config [])
             "GET" "/users" None None None None None UsersResponse
             (PyClass UsersResponse))))
           (new_world unlimited_config [inr huge_429]) ∅ None 7 0
           OverflowError
           (after (new_world unlimited_config [inr huge_429]) []
              [EvRequest
                 (send_request (new_client unlimited_config) "GET" "/users"
                    None (Some ∅) None)])).
    vm_compute. reflexivity.
Defined.

Lemma decode_failure_surfaces_witness :
  let w := new_world sample_config [inr garbled_response; inr ok_response] in
  api_send sample_version sample_parse_data sample_wait sample_receive_response
    (PyClass UsersResponse) "GET" "/users" None None None None None w =
  (Raise ContentTypeError,
   after w [inr ok_response]
     [EvRequest
        (api_request sample_version (self w) (PyClass UsersResponse) "GET"
           "/users" None None None None)]).
Proof.
  apply (proj2 (decode_failure_surfaces sample_version sample_parse_data
           sample_wait sample_receive_response
           (new_world sample_config [inr garbled_response; inr ok_response])
           "GET" "/users" None None None None None (PyClass UsersResponse)
           garbled_response ContentTypeError [inr ok_response]
           eq_refl eq_refl eq_refl)).
Defined.

Lemma client_session_lazy_idempotent_witness :
  let w1 := (send "GET" "/users" None None None
               (new_world sample_config [inr ok_response; inr ok_response])).2 in
  let w2 := (send "GET" "/users" None None None w1).2 in
  sessions_created w1 = [sample_session] ∧
  self w2 = self w1 ∧ sessions_created w2 = [sample_session].
Proof.
  destruct (proj1 (client_session_lazy_idempotent
              (new_world sample_config [inr ok_response; inr ok_response])
              "GET" "/users" None None None) eq_refl)
    as (s & r & Hs & Hc & _).
  destruct (proj2 (client_session_lazy_idempotent
              (send "GET" "/users" None None None
                 (new_world sample_config
                    [inr ok_response; inr ok_response])).2
              "GET" "/users" None None None) sample_session eq_refl)
    as (r' & Hself & Hc' & _).
  injection Hs as <-.
  split; [exact Hc|]. split; [exact Hself | exact Hc'].
Defined.

Lemma non_error_answer_is_terminal_witness :
  let w := running_world sample_config
             [inr service_unavailable; inr ok_response] in
  let r := api_request sample_version (self w) (PyClass UsersResponse) "GET"
             "/users" None None None None in
  api_send sample_version sample_parse_data sample_wait sample_receive_response
    (PyClass UsersResponse) "GET" "/users" None None None None None w =
  (Ret (Instance UsersResponse ∅),
   received sample_receive_response (PyInst (Instance UsersResponse ∅))
     (after w [inr ok_response] [EvRequest r])).
Proof.
  apply (proj2 (non_error_answer_is_terminal sample_version sample_parse_data
           sample_wait sample_receive_response
           (running_world sample_config
              [inr service_unavailable; inr ok_response])
           "GET" "/users" None None None None None UsersResponse
           service_unavailable (Instance UsersResponse ∅) [inr ok_response]
           eq_refl ltac:(done) eq_refl eq_refl eq_refl)).
Defined.

(** The login call of the client, [api_send(response.LoginResponse, ...)],
    on a client that holds no token yet: the request goes out with an
    [Authorization] header. *)
Example login_request_carries_authorization :
  ∃ r h,
    log (api_send sample_version sample_parse_data sample_wait sample_receive_response
           (PyClass LoginResponse) "POST" "/login" (Some "{}") None None None
           None (new_world sample_config [inr ok_response])).2 =
    [EvRequest r; EvReceive (PyInst (Instance LoginResponse ∅))] ∧
    req_headers r = Some h ∧
    h !! "Authorization" = Some "Bearer None".
Proof.
  eexists _, _. split; [reflexivity|]. split; [reflexivity|].
  vm_compute. reflexivity.
Qed.

(** The specification's decoding example: the error variant exposes the
    payload's [retry_after_ms], and the loop would wait a second and a half
    on it. *)
Example rate_limited_body_wait :
  getattr (sample_parse_data UsersResponse rate_limited_body)
    "retry_after_ms" (VInt 0) = VInt 1500 ∧
  spec_wait (sample_parse_data UsersResponse rate_limited_body) = 3 # 2.
Proof. split; reflexivity. Qed.

Lemma api_send_retries_bounded_witness :
  let w := new_world sample_config
             [inr too_many_requests; inl TimeoutError; inr too_many_requests;
              inr stalled_response; inr too_many_requests; inr ok_response] in
  let x := api_send sample_version sample_parse_data sample_wait sample_receive_response
             (PyClass UsersResponse) "GET" "/users" None None None None None
             w in
  ∃ tr,
    log x.2 = log w ++ tr ∧
    Z.of_nat (requests tr) <= Z.max 0 2 + Z.max 0 2 + 1 ∧
    Z.of_nat (sleeps tr) <= Z.max 0 2 + Z.max 0 2 ∧
    (Z.max 0 2 + Z.max 0 2 < Z.of_nat (length (network w)) → x.1 ≠ Pending).
Proof.
  apply (api_send_retries_bounded sample_version sample_parse_data
           sample_wait sample_receive_response
           (new_world sample_config
              [inr too_many_requests; inl TimeoutError;
               inr too_many_requests; inr stalled_response;
               inr too_many_requests; inr ok_response])
           (PyClass UsersResponse) "GET" "/users" None None None None None
           2 2 eq_refl eq_refl).
Defined.

Lemma api_send_mixed_failures_then_success_witness :
  let w := new_world sample_config
             [inr too_many_requests; inl TimeoutError; inr stalled_response;
              inr too_many_requests; inr ok_response] in
  let r := api_request sample_version (self w) (PyClass UsersResponse) "GET"
             "/users" None None None None in
  api_send sample_version sample_parse_data sample_wait sample_receive_response
    (PyClass UsersResponse) "GET" "/users" None None None None None w =
  (Ret (Instance UsersResponse ∅),
   received sample_receive_response (PyInst (Instance UsersResponse ∅))
     (after w []
        [EvRequest r; EvSleep (3 # 2); EvRequest r; EvSleep (sample_wait 1);
         EvRequest r; EvSleep (sample_wait 2); EvRequest r; EvSleep (3 # 2);
         EvRequest r])).
Proof.
  apply (api_send_mixed_failures_then_success sample_version
           sample_parse_data sample_wait sample_receive_response
           (new_world sample_config
              [inr too_many_requests; inl TimeoutError;
               inr stalled_response; inr too_many_requests;
               inr ok_response])
           UsersResponse "GET" "/users" None None None None None
           [inr too_many_requests; inl TimeoutError; inr stalled_response;
            inr too_many_requests]
           ok_response (Instance UsersResponse ∅) []).
  - reflexivity.
  - repeat (constructor;
            [first [left; reflexivity | right; reflexivity]|]).
    constructor.
  - vm_compute. intros H. discriminate H.
  - vm_compute. intros H. discriminate H.
  - repeat split.
Defined.

Lemma unexpected_error_surfaces_witness :
  let w := new_world sample_config
             [inl ClientPayloadError; inr ok_response] in
  api_send sample_version sample_parse_data sample_wait sample_receive_response
    (PyClass UsersResponse) "GET" "/users" None None None None None w =
  (Raise ClientPayloadError,
   after w [inr ok_response]
     [EvRequest
        (api_request sample_version (self w) (PyClass UsersResponse) "GET"
           "/users" None None None None)]).
Proof.
  apply (proj2 (unexpected_error_surfaces sample_version sample_parse_data
           sample_wait sample_receive_response
           (new_world sample_config [inl ClientPayloadError; inr ok_response])
           (PyClass UsersResponse) "GET" "/users" None None None None None
           (inl ClientPayloadError) ClientPayloadError [inr ok_response]
           eq_refl eq_refl eq_refl)).
Defined.

Lemma nonpositive_ceiling_never_retries_witness :
  let w1 := new_world no_retry_config
              [inr too_many_requests; inr ok_response] in
  let w2 := new_world no_retry_config
              [inr stalled_response; inr ok_response] in
  let r := api_request sample_version (new_client no_retry_config)
             (PyClass UsersResponse) "GET" "/users" None None None None in
  let resp := sample_parse_data UsersResponse rate_limited_body in
  api_send sample_version sample_parse_data sample_wait sample_receive_response
    (PyClass UsersResponse) "GET" "/users" None None None None None w1 =
  (Ret resp,
   received sample_receive_response (PyInst resp)
     (after w1 [inr ok_response] [EvRequest r])) ∧
  api_send sample_version sample_parse_data sample_wait sample_receive_response
    (PyClass UsersResponse) "GET" "/users" None None None None None w2 =
  (Raise AsyncioTimeoutError, after w2 [inr ok_response] [EvRequest r]).
Proof.
  split.
  - apply (proj1 (nonpositive_ceiling_never_retries sample_version
             sample_parse_data sample_wait sample_receive_response
             (new_world no_retry_config
                [inr too_many_requests; inr ok_response])
             UsersResponse (PyClass UsersResponse) "GET" "/users" None None
             None None None 0 ltac:(done))
           too_many_requests
           (sample_parse_data UsersResponse rate_limited_body)
           [inr ok_response] eq_refl eq_refl eq_refl eq_refl eq_refl).
  - apply (proj2 (nonpositive_ceiling_never_retries sample_version
             sample_parse_data sample_wait sample_receive_response
             (new_world no_retry_config
                [inr stalled_response; inr ok_response])
             UsersResponse (PyClass UsersResponse) "GET" "/users" None None
             None None None 0 ltac:(done))
           (inr stalled_response) AsyncioTimeoutError [inr ok_response]
           eq_refl eq_refl eq_refl eq_refl).
Defined.

Lemma consecutive_calls_reset_counters_witness :
  let w := new_world sample_config
             [inr too_many_requests; inr too_many_requests; inr ok_response;
              inr too_many_requests; inr too_many_requests;
              inr ok_response] in
  let x := (api_send sample_version sample_parse_data sample_wait
              sample_receive_response (PyClass UsersResponse) "GET" "/users"
              None None None None None ;;;
            api_send sample_version sample_parse_data sample_wait
              sample_receive_response (PyClass UsersResponse) "GET"
              "/clients" None None None None None) w in
  x.1 = Ret (Instance UsersResponse ∅) ∧
  network x.2 = [] ∧
  sessions_created x.2 = [sample_session] ∧
  sleeps (log x.2) = 4%nat.
Proof.
  destruct (consecutive_calls_reset_counters sample_version sample_parse_data
              sample_wait sample_receive_response
              (new_world sample_config
                 [inr too_many_requests; inr too_many_requests;
                  inr ok_response; inr too_many_requests;
                  inr too_many_requests; inr ok_response])
              UsersResponse "GET" "/users" None "GET" "/clients" None None
              None None None [too_many_requests; too_many_requests]
              ok_response (Instance UsersResponse ∅)
              [too_many_requests; too_many_requests] ok_response
              (Instance UsersResponse ∅) [] eq_refl
              ltac:(repeat constructor) ltac:(repeat constructor)
              ltac:(simpl; lia) ltac:(repeat split) ltac:(repeat split)
              ltac:(vm_compute; intros H; discriminate H)) as [Hrun Hkept].
  destruct (Hkept eq_refl) as [_ Hsessions].
  cbv zeta. split; [by rewrite Hrun|]. split; [by rewrite Hrun|].
  split; [exact Hsessions|]. by rewrite Hrun.
Defined.

(** ** Rate-limited answers the loop does not retry *)

(** C2 as stated fails. One answer with HTTP 429 and then a success, under a
    ceiling of 2: when the body of the 429 is no JSON the call raises the
    decode error, and when the body asks for a wait of [10 ^ 400]
    milliseconds it raises an overflow error; either way it has sent one
    request, has not slept, and leaves the success unread. *)
Lemma rate_limited_answer_can_raise :
  let call := api_send sample_version sample_parse_data sample_wait
                sample_receive_response (PyClass UsersResponse) "GET"
                "/users" None None None None None in
  let x1 := call (new_world sample_config [inr html_429; inr ok_response]) in
  let x2 := call (new_world sample_config [inr huge_429; inr ok_response]) in
  (status html_429 = 429 ∧ status huge_429 = 429 ∧
   within (max_limit_exceeded sample_config) 1 ∧
   succeeds sample_parse_data UsersResponse ok_response
     (Instance UsersResponse ∅)) ∧
  (x1.1 = Raise ContentTypeError ∧ requests (log x1.2) = 1%nat ∧
   sleeps (log x1.2) = 0%nat ∧ network x1.2 = [inr ok_response]) ∧
  (getattr (sample_parse_data UsersResponse
              (JDict [("code", JInt 429); ("retry_after_ms", JInt (10 ^ 400))]))
     "retry_after_ms" (VInt 0) = VInt (10 ^ 400) ∧
   x2.1 = Raise OverflowError ∧ requests (log x2.2) = 1%nat ∧
   sleeps (log x2.2) = 0%nat ∧ network x2.2 = [inr ok_response]).
Proof.
  cbv zeta. split; [|split].
  - split; [reflexivity|]. split; [reflexivity|]. split; [simpl; lia|].
    repeat split.
  - repeat split; vm_compute; reflexivity.
  - repeat split; vm_compute; reflexivity.
Qed.

(** C3 as stated fails. Three answers with HTTP 429 under a ceiling of 2:
    when their bodies are no JSON the call raises the decode error at the
    first, and when they ask for a wait of [10 ^ 400] milliseconds it raises
    an overflow error at the first; either way there is no retry, and what
    comes back is an exception, not the last error variant. *)
Lemma rate_limit_exhaustion_can_raise :
  let call := api_send sample_version sample_parse_data sample_wait
                sample_receive_response (PyClass UsersResponse) "GET"
                "/users" None None None None None in
  let x1 := call (new_world sample_config
                    [inr html_429; inr html_429; inr html_429]) in
  let x2 := call (new_world sample_config
                    [inr huge_429; inr huge_429; inr huge_429]) in
  (max_limit_exceeded sample_config = Some 2 ∧
   status html_429 = 429 ∧ status huge_429 = 429) ∧
  (x1.1 = Raise ContentTypeError ∧ requests (log x1.2) = 1%nat ∧
   sleeps (log x1.2) = 0%nat ∧ network x1.2 = [inr html_429; inr html_429]) ∧
  (decoded sample_parse_data UsersResponse huge_429 =
     Some (Instance ErrorResponse {[ "retry_after_ms" := VInt (10 ^ 400) ]}) ∧
   x2.1 = Raise OverflowError ∧ requests (log x2.2) = 1%nat ∧
   sleeps (log x2.2) = 0%nat ∧ network x2.2 = [inr huge_429; inr huge_429]).
Proof.
  cbv zeta. split; [|split].
  - repeat split.
  - repeat split; vm_compute; reflexivity.
  - repeat split; vm_compute; reflexivity.
Qed.
